(** * Supervisors.AUV.Safety: the safety supervisor task

    A shallow embedding of [Supervisors::AUV::Safety::Task]: the message
    handlers ([consume]), the safety verdict ([isSafe]) and the periodic
    decision procedure ([task]).  Member variables become the fields of the
    record [Task]; every handler is a computation in a small monad that
    threads the task object, collects what is sent on the bus and models the
    [return;] statements of the source.  The servo sweep test task
    [Actuators::ServoTest::Task] follows in the module [ServoTest]. *)

From Stdlib Require Import ZArith QArith Bool List String Lia Lqa SpecFloat.
Import ListNotations.

Local Open Scope string_scope.
Local Open Scope list_scope.
Local Open Scope Z_scope.

(** ** Library types used by the task *)

(** Modelled from the spec: [DUNE::Time::Counter] is not among the sources.
    A counter has a threshold and the time elapsed since the last reset;
    [overflow] holds when the elapsed time has reached the threshold,
    [reset] zeroes the elapsed time, [setTop] changes the threshold only.
    Time is counted in seconds. *)
Module Counter.

Record t : Type := mk { top : Q; elapsed : Q }.

Definition init : t := mk 0 0.

Definition setTop (x : Q) (c : t) : t := mk x (elapsed c).

Definition reset (c : t) : t := mk (top c) 0.

Definition overflow (c : t) : bool := Qle_bool (top c) (elapsed c).

(** Wall-clock time passing; not an operation of the class. *)
Definition advance (dt : Q) (c : t) : t := mk (top c) (elapsed c + dt).

End Counter.

(** Modelled from the spec: [DUNE::Monitors::MediumHandler] and the medium
    values of [IMC::VehicleMedium] are not among the sources.  The handler
    keeps the last reported medium, unknown until the first report. *)
Module MediumHandler.

Inductive Medium : Type := VM_UNKNOWN | VM_AIR | VM_WATER | VM_UNDERWATER.

Definition t : Type := Medium.

Definition init : t := VM_UNKNOWN.

Definition update (msg : Medium) (_ : t) : t := msg.

Definition isUnderwater (m : t) : bool :=
  match m with VM_UNDERWATER => true | _ => false end.

Definition isWaterSurface (m : t) : bool :=
  match m with VM_WATER => true | _ => false end.

Definition inWater (m : t) : bool := isWaterSurface m || isUnderwater m.

End MediumHandler.

(** ** IMC messages (the fields the task reads or writes) *)

(** Modelled from the spec: the IMC enumerations are not among the sources;
    the constants the task names are kept, the remaining ones are those of
    the IMC message definitions. *)
Inductive PCS_State : Type :=
  PCS_BLOCKED | PCS_READY | PCS_INITIALIZING | PCS_EXECUTING.

Inductive PCS_LastOutcome : Type := LPO_NONE | LPO_SUCCESS | LPO_FAILURE.

Inductive VS_OpMode : Type :=
  VS_SERVICE | VS_CALIBRATION | VS_ERROR | VS_MANEUVER | VS_EXTERNAL | VS_BOOT.

Inductive PG_Op : Type := OP_REQUEST | OP_ERROR | OP_SUCCESS.

Inductive PG_Cmd : Type := CMD_GENERATE | CMD_EXECUTE.

Inductive EntityStateKind : Type := ESTA_BOOT | ESTA_NORMAL | ESTA_FAULT.

Inductive StatusCode : Type := CODE_IDLE | CODE_ACTIVE.

Record PlanControlState : Type := mkPCS {
  state : PCS_State;
  last_outcome : PCS_LastOutcome
}.

Record PlanGeneration : Type := mkPG {
  op : PG_Op;
  cmd : PG_Cmd;
  plan_id : string;
  params : string
}.

(** The position fields [Coordinates::toWGS84] reads. *)
Record EstimatedState : Type := mkES {
  lat : spec_float;
  lon : spec_float;
  height : spec_float;
  x : spec_float;
  y : spec_float;
  z : spec_float
}.

Definition PCS_State_eqb (a b : PCS_State) : bool :=
  match a, b with
  | PCS_BLOCKED, PCS_BLOCKED | PCS_READY, PCS_READY
  | PCS_INITIALIZING, PCS_INITIALIZING | PCS_EXECUTING, PCS_EXECUTING => true
  | _, _ => false
  end.

Definition PCS_LastOutcome_eqb (a b : PCS_LastOutcome) : bool :=
  match a, b with
  | LPO_NONE, LPO_NONE | LPO_SUCCESS, LPO_SUCCESS
  | LPO_FAILURE, LPO_FAILURE => true
  | _, _ => false
  end.

Definition VS_OpMode_eqb (a b : VS_OpMode) : bool :=
  match a, b with
  | VS_SERVICE, VS_SERVICE | VS_CALIBRATION, VS_CALIBRATION
  | VS_ERROR, VS_ERROR | VS_MANEUVER, VS_MANEUVER
  | VS_EXTERNAL, VS_EXTERNAL | VS_BOOT, VS_BOOT => true
  | _, _ => false
  end.

(** ** Constants and task data *)

(** Time to wait to check conditions after failed attempt. *)
Definition c_fail_timeout : Q := 60.

(** Distance to safety position threshold: 50.0 as a binary64 value. *)
Definition c_safety_dist : spec_float :=
  S754_finite false 7036874417766400 (-47).

Record Arguments : Type := mkArgs {
  timeout : Q;
  sk : bool;
  asc : bool
}.

(** [enum DataReady] *)
Definition GOT_NOTHING : Z := 0x00.
Definition GOT_VSTATE : Z := 0x01.
Definition GOT_MEDIUM : Z := 0x02.
Definition GOT_PCS : Z := 0x04.
Definition GOT_ALL : Z := 0x07.

Record Task : Type := mkTask {
  m_lost_coms_timer : Counter.t;
  m_fail_timer : Counter.t;
  m_medium : MediumHandler.t;
  m_serv_err : bool;
  m_pcs : PlanControlState;
  m_pg : PlanGeneration;
  m_dr : Z;
  m_is_near : bool;
  m_issued : bool;
  m_safety : bool;
  m_args : Arguments
}.

(** Field updates. *)
Definition upd_lost_coms_timer (f : Counter.t -> Counter.t) (s : Task) : Task :=
  mkTask (f (m_lost_coms_timer s)) (m_fail_timer s) (m_medium s) (m_serv_err s)
         (m_pcs s) (m_pg s) (m_dr s) (m_is_near s) (m_issued s) (m_safety s)
         (m_args s).

Definition upd_fail_timer (f : Counter.t -> Counter.t) (s : Task) : Task :=
  mkTask (m_lost_coms_timer s) (f (m_fail_timer s)) (m_medium s) (m_serv_err s)
         (m_pcs s) (m_pg s) (m_dr s) (m_is_near s) (m_issued s) (m_safety s)
         (m_args s).

Definition upd_medium (f : MediumHandler.t -> MediumHandler.t) (s : Task) : Task :=
  mkTask (m_lost_coms_timer s) (m_fail_timer s) (f (m_medium s)) (m_serv_err s)
         (m_pcs s) (m_pg s) (m_dr s) (m_is_near s) (m_issued s) (m_safety s)
         (m_args s).

Definition set_serv_err (b : bool) (s : Task) : Task :=
  mkTask (m_lost_coms_timer s) (m_fail_timer s) (m_medium s) b
         (m_pcs s) (m_pg s) (m_dr s) (m_is_near s) (m_issued s) (m_safety s)
         (m_args s).

Definition set_pcs (p : PlanControlState) (s : Task) : Task :=
  mkTask (m_lost_coms_timer s) (m_fail_timer s) (m_medium s) (m_serv_err s)
         p (m_pg s) (m_dr s) (m_is_near s) (m_issued s) (m_safety s)
         (m_args s).

Definition upd_pg (f : PlanGeneration -> PlanGeneration) (s : Task) : Task :=
  mkTask (m_lost_coms_timer s) (m_fail_timer s) (m_medium s) (m_serv_err s)
         (m_pcs s) (f (m_pg s)) (m_dr s) (m_is_near s) (m_issued s) (m_safety s)
         (m_args s).

Definition upd_dr (f : Z -> Z) (s : Task) : Task :=
  mkTask (m_lost_coms_timer s) (m_fail_timer s) (m_medium s) (m_serv_err s)
         (m_pcs s) (m_pg s) (f (m_dr s)) (m_is_near s) (m_issued s) (m_safety s)
         (m_args s).

Definition set_is_near (b : bool) (s : Task) : Task :=
  mkTask (m_lost_coms_timer s) (m_fail_timer s) (m_medium s) (m_serv_err s)
         (m_pcs s) (m_pg s) (m_dr s) b (m_issued s) (m_safety s)
         (m_args s).

Definition set_issued (b : bool) (s : Task) : Task :=
  mkTask (m_lost_coms_timer s) (m_fail_timer s) (m_medium s) (m_serv_err s)
         (m_pcs s) (m_pg s) (m_dr s) (m_is_near s) b (m_safety s)
         (m_args s).

Definition set_safety (b : bool) (s : Task) : Task :=
  mkTask (m_lost_coms_timer s) (m_fail_timer s) (m_medium s) (m_serv_err s)
         (m_pcs s) (m_pg s) (m_dr s) (m_is_near s) (m_issued s) b
         (m_args s).

Definition set_op (o : PG_Op) (p : PlanGeneration) : PlanGeneration :=
  mkPG o (cmd p) (plan_id p) (params p).

Definition set_cmd (c : PG_Cmd) (p : PlanGeneration) : PlanGeneration :=
  mkPG (op p) c (plan_id p) (params p).

Definition set_params (v : string) (p : PlanGeneration) : PlanGeneration :=
  mkPG (op p) (cmd p) (plan_id p) v.

Definition upd_plan_id (f : string -> string) (p : PlanGeneration) : PlanGeneration :=
  mkPG (op p) (cmd p) (f (plan_id p)) (params p).

(** ** What the task sends out *)

Inductive Output : Type :=
| Dispatch (msg : PlanGeneration)
| EntityState (st : EntityStateKind) (code : StatusCode).

(** ** The monad of member functions

    A member function reads and writes the task object, appends to the
    outputs, and may leave through [return;], in which case the rest of the
    body is skipped ([None]). *)
Definition M (A : Type) : Type := Task -> option A * Task * list Output.

Definition ret {A : Type} (a : A) : M A := fun s => (Some a, s, []).

Definition bind {A B : Type} (m : M A) (k : A -> M B) : M B :=
  fun s =>
    match m s with
    | (Some a, s1, o1) =>
        match k a s1 with
        | (r, s2, o2) => (r, s2, o1 ++ o2)
        end
    | (None, s1, o1) => (None, s1, o1)
    end.

Definition return_ {A : Type} : M A := fun s => (None, s, []).

Definition gets {A : Type} (f : Task -> A) : M A := fun s => (Some (f s), s, []).

Definition modify (f : Task -> Task) : M unit := fun s => (Some tt, f s, []).

Definition emit (o : Output) : M unit := fun s => (Some tt, s, [o]).

Definition when (b : bool) (m : M unit) : M unit := if b then m else ret tt.

(** Running a [void] member function to its end. *)
Definition call (m : M unit) (s : Task) : Task * list Output :=
  match m s with (_, s', o) => (s', o) end.

Declare Scope task_scope.
Delimit Scope task_scope with task.
Notation "x <- m ;; k" := (bind m (fun x => k))
  (at level 61, m at next level, right associativity) : task_scope.
Notation "m ;; k" := (bind m (fun _ => k))
  (at level 61, right associativity) : task_scope.
Local Open Scope task_scope.

Definition dispatch (msg : PlanGeneration) : M unit := emit (Dispatch msg).

Definition setEntityState (st : EntityStateKind) (code : StatusCode) : M unit :=
  emit (EntityState st code).

(** ** The task *)

Section Supervisor.

(** [getSystemId()]: the IMC address of the vehicle the task runs on. *)
Variable system_id : Z.

(** [Coordinates::toWGS84] and [Coordinates::WGS84::distance] belong to the
    DUNE core library; the task only passes values through them. *)
Variable toWGS84 : EstimatedState -> spec_float * spec_float.
Variable WGS84_distance :
  spec_float -> spec_float -> spec_float ->
  spec_float -> spec_float -> spec_float -> spec_float.

(** The constructor.  The three parameters registered with [param] are
    loaded by the framework; [cfg] is what it loaded. *)
Definition new_Task (cfg : Arguments) : Task :=
  {| m_lost_coms_timer := Counter.init;
     m_fail_timer := Counter.init;
     m_medium := MediumHandler.init;
     m_serv_err := false;
     m_pcs := mkPCS PCS_BLOCKED LPO_NONE;
     m_pg := mkPG OP_REQUEST CMD_GENERATE EmptyString EmptyString;
     m_dr := GOT_NOTHING;
     m_is_near := true;
     m_issued := false;
     m_safety := false;
     m_args := cfg |}.

(** Called when the parameters are loaded; at start-up every parameter
    counts as changed. *)
Definition onUpdateParameters : M unit :=
  t <- gets (fun s => timeout (m_args s)) ;;
  modify (upd_lost_coms_timer (Counter.setTop t)).

Definition onResourceInitialization : M unit :=
  modify (upd_pg (set_op OP_REQUEST)) ;;
  modify (upd_pg (set_cmd CMD_EXECUTE)) ;;
  modify (upd_pg (set_params "calibrate=false;ignore_errors=true")) ;;
  modify (upd_fail_timer (Counter.setTop c_fail_timeout)) ;;
  setEntityState ESTA_NORMAL CODE_IDLE.

Definition consume_EstimatedState (msg : EstimatedState) : M unit :=
  let '(lat, lon) := toWGS84 msg in
  let rlat := S754_zero false in
  let rlon := S754_zero false in
  let dist :=
    WGS84_distance lat lon (S754_zero false) rlat rlon (S754_zero false) in
  if SFltb c_safety_dist dist
  then modify (set_is_near false)
  else modify (set_is_near true).

Definition consume_Heartbeat (src : Z) : M unit :=
  when (src =? system_id) return_ ;;
  when (Z.land src 0x4000 =? 0) return_ ;;
  modify (upd_lost_coms_timer Counter.reset).

Definition consume_PlanControl (src : Z) : M unit :=
  when (negb (src =? system_id))
    (modify (set_issued false) ;;
     modify (set_safety false)).

Definition consume_PlanControlState (msg : PlanControlState) : M unit :=
  modify (upd_dr (fun d => Z.lor d GOT_PCS)) ;;
  modify (set_pcs msg).

Definition consume_VehicleState (op_mode : VS_OpMode) : M unit :=
  when (negb (VS_OpMode_eqb op_mode VS_BOOT))
    (modify (upd_dr (fun d => Z.lor d GOT_VSTATE))) ;;
  modify (set_serv_err (VS_OpMode_eqb op_mode VS_SERVICE
                        || VS_OpMode_eqb op_mode VS_ERROR)).

Definition consume_VehicleMedium (medium : MediumHandler.Medium) : M unit :=
  modify (upd_dr (fun d => Z.lor d GOT_MEDIUM)) ;;
  modify (upd_medium (MediumHandler.update medium)) ;;
  uw <- gets (fun s => MediumHandler.isUnderwater (m_medium s)) ;;
  when uw (modify (upd_lost_coms_timer Counter.reset)).

(** Checks if the vehicle is plan ready or blocked. *)
Definition isIdle (s : Task) : bool :=
  PCS_State_eqb (state (m_pcs s)) PCS_BLOCKED
  || PCS_State_eqb (state (m_pcs s)) PCS_READY.

(** Checks if the vehicle last outcome is failure. *)
Definition hasFailed (s : Task) : bool :=
  PCS_LastOutcome_eqb (last_outcome (m_pcs s)) LPO_FAILURE.

(** Check if vehicle is near safety position. *)
Definition isNear (s : Task) : bool := m_is_near s.

(** Check if we need to move the vehicle to safe zone. *)
Definition isSafe (s : Task) : bool :=
  if isNear s then true
  else if m_safety s then true
  else if negb (Counter.overflow (m_lost_coms_timer s)) then true
  else if m_serv_err s && isIdle s then false
  else if m_issued s then false
  else true.

(** Send system to safety. *)
Definition goToSafety : M unit :=
  modify (set_safety true) ;;
  modify (upd_pg (upd_plan_id (fun _ => "safety_zone"))) ;;
  pg <- gets m_pg ;;
  dispatch pg.

Definition task : M unit :=
  dr <- gets m_dr ;;
  when (negb (dr =? GOT_ALL)) return_ ;;
  inw <- gets (fun s => MediumHandler.inWater (m_medium s)) ;;
  when (negb inw) return_ ;;
  safe <- gets isSafe ;;
  when (negb safe)
    (modify (upd_lost_coms_timer Counter.reset) ;;
     goToSafety ;;
     return_) ;;
  args <- gets m_args ;;
  when (negb (sk args) && negb (asc args)) return_ ;;
  serv_err <- gets m_serv_err ;;
  when (negb serv_err) return_ ;;
  idle <- gets isIdle ;;
  when (negb idle) return_ ;;
  modify (upd_pg (upd_plan_id (fun _ => EmptyString))) ;;
  failed <- gets hasFailed ;;
  when failed
    (ov <- gets (fun s => Counter.overflow (m_fail_timer s)) ;;
     when (negb ov) return_ ;;
     modify (upd_fail_timer Counter.reset) ;;
     modify (upd_pg (upd_plan_id (fun _ => "safety_")))) ;;
  uw <- gets (fun s => MediumHandler.isUnderwater (m_medium s)) ;;
  (if uw
   then
     when (negb (asc args)) return_ ;;
     modify (upd_pg (upd_plan_id (fun p => String.append p "surface")))
   else
     when (negb (sk args)) return_ ;;
     modify (upd_pg (upd_plan_id (fun p => String.append p "sk")))) ;;
  modify (set_issued true) ;;
  pg <- gets m_pg ;;
  dispatch pg ;;
  setEntityState ESTA_NORMAL CODE_ACTIVE.

(** ** The task in its environment

    The runtime delivers the bound messages one at a time and calls [task]
    periodically; between two of these steps time passes. *)
Inductive Message : Type :=
| MsgEstimatedState (msg : EstimatedState)
| MsgHeartbeat (src : Z)
| MsgPlanControl (src : Z)
| MsgPlanControlState (msg : PlanControlState)
| MsgVehicleState (op_mode : VS_OpMode)
| MsgVehicleMedium (medium : MediumHandler.Medium).

Inductive Event : Type :=
| Deliver (msg : Message)
| Tick
| Elapse (dt : Q).

Definition consume (msg : Message) : M unit :=
  match msg with
  | MsgEstimatedState m => consume_EstimatedState m
  | MsgHeartbeat src => consume_Heartbeat src
  | MsgPlanControl src => consume_PlanControl src
  | MsgPlanControlState m => consume_PlanControlState m
  | MsgVehicleState m => consume_VehicleState m
  | MsgVehicleMedium m => consume_VehicleMedium m
  end.

Definition elapse (dt : Q) (s : Task) : Task :=
  upd_fail_timer (Counter.advance dt)
    (upd_lost_coms_timer (Counter.advance dt) s).

Definition step (e : Event) (s : Task) : Task * list Output :=
  match e with
  | Deliver msg => call (consume msg) s
  | Tick => call task s
  | Elapse dt => (elapse dt s, [])
  end.

Fixpoint run (es : list Event) (s : Task) : Task * list Output :=
  match es with
  | [] => (s, [])
  | e :: es' =>
      let '(s1, o1) := step e s in
      let '(s2, o2) := run es' s1 in
      (s2, o1 ++ o2)
  end.

(** Start-up: construction, parameter loading, resource initialization. *)
Definition startup (cfg : Arguments) : Task * list Output :=
  let '(s1, o1) := call onUpdateParameters (new_Task cfg) in
  let '(s2, o2) := call onResourceInitialization s1 in
  (s2, o1 ++ o2).

End Supervisor.

(** ** Sample data

    A vehicle address, a console address, flat stand-ins for the two
    coordinate functions (a fix is either at the reference point or 100 m
    away from it) and two task objects, used to run the handlers on concrete
    inputs. *)
Definition vehicle_id : Z := 0x001E.

Definition console_id : Z := 0x4001.

Definition flat_toWGS84 (msg : EstimatedState) : spec_float * spec_float :=
  (lat msg, lon msg).

Definition flat_distance
    (lat1 lon1 _ _ _ _ : spec_float) : spec_float :=
  match lat1, lon1 with
  | S754_zero _, S754_zero _ => S754_zero false
  | _, _ => S754_finite false 7036874417766400 (-46)
  end.

Definition default_cfg : Arguments := mkArgs 600 true true.

(** A fix at 0.5 rad north of the reference point. *)
Definition fix_away : EstimatedState :=
  mkES (S754_finite false 4503599627370496 (-53)) (S754_zero false)
       (S754_zero false) (S754_zero false) (S754_zero false) (S754_zero false).

(** All data seen, at the surface, in service, plan control ready, away from
    the reference point, consoles silent for 700 s. *)
Definition drifting : Task :=
  {| m_lost_coms_timer := Counter.mk 600 700;
     m_fail_timer := Counter.mk 60 0;
     m_medium := MediumHandler.VM_WATER;
     m_serv_err := true;
     m_pcs := mkPCS PCS_READY LPO_NONE;
     m_pg := mkPG OP_REQUEST CMD_EXECUTE EmptyString "calibrate=false;ignore_errors=true";
     m_dr := GOT_ALL;
     m_is_near := false;
     m_issued := false;
     m_safety := false;
     m_args := default_cfg |}.

(** Underwater with a console in reach, the last plan failed more than a
    minute ago, popping up by actuation is disabled. *)
Definition failed_underwater : Task :=
  {| m_lost_coms_timer := Counter.mk 600 10;
     m_fail_timer := Counter.mk 60 61;
     m_medium := MediumHandler.VM_UNDERWATER;
     m_serv_err := true;
     m_pcs := mkPCS PCS_READY LPO_FAILURE;
     m_pg := mkPG OP_REQUEST CMD_EXECUTE "sk" "calibrate=false;ignore_errors=true";
     m_dr := GOT_ALL;
     m_is_near := false;
     m_issued := false;
     m_safety := false;
     m_args := mkArgs 600 true false |}.

(** As [drifting], but within reach of the reference point. *)
Definition idle_at_surface : Task := set_is_near true drifting.

(** As [failed_underwater], but the vehicle is not in service or error. *)
Definition failed_underwater_manoeuvring : Task :=
  set_serv_err false failed_underwater.

(** Vehicle state and plan control state arrive, never the medium. *)
Definition history_no_medium : list Event :=
  [Deliver (MsgVehicleState VS_SERVICE);
   Deliver (MsgPlanControlState (mkPCS PCS_READY LPO_NONE));
   Tick; Elapse 700; Tick].

(** All data arrive, the fix is away from the reference point, and no
    console is heard for 601 s. *)
Definition history_drifting : list Event :=
  [Deliver (MsgVehicleState VS_SERVICE);
   Deliver (MsgVehicleMedium MediumHandler.VM_WATER);
   Deliver (MsgPlanControlState (mkPCS PCS_READY LPO_NONE));
   Deliver (MsgEstimatedState fix_away);
   Tick; Elapse 601].

(** A console was just heard; ticks and waits of 599 s in all follow. *)
Definition history_in_touch : list Event :=
  [Tick; Elapse 300; Tick; Deliver (MsgPlanControl console_id);
   Elapse 299; Tick].

(** Ticks, waits and a console heartbeat. *)
Definition history_ticking : list Event :=
  [Tick; Elapse 700; Tick; Deliver (MsgHeartbeat console_id); Elapse 700; Tick].

(** ** Auxiliary definitions for the properties *)

(** The outcomes of [task]. *)

Definition with_plan_id (id : string) (s : Task) : Task :=
  upd_pg (upd_plan_id (fun _ => id)) s.

Definition issue (id : string) (s : Task) : Task * list Output :=
  let s' := set_issued true (with_plan_id id s) in
  (s', [Dispatch (m_pg s'); EntityState ESTA_NORMAL CODE_ACTIVE]).

Definition hold_station (pre : string) (s : Task) : Task * list Output :=
  if MediumHandler.isUnderwater (m_medium s)
  then if asc (m_args s) then issue (pre ++ "surface")%string s else (s, [])
  else if sk (m_args s) then issue (pre ++ "sk")%string s else (s, []).

(** The request the task sends on an unsafe verdict. *)
Definition safety_request : PlanGeneration :=
  mkPG OP_REQUEST CMD_EXECUTE "safety_zone" "calibrate=false;ignore_errors=true".

(** What [onResourceInitialization] writes into the request buffer. *)
Definition pg_configured (s : Task) : Prop :=
  op (m_pg s) = OP_REQUEST /\
  cmd (m_pg s) = CMD_EXECUTE /\
  params (m_pg s) = "calibrate=false;ignore_errors=true".

(** The readiness bits of [m_dr]: [GOT_VSTATE], [GOT_MEDIUM], [GOT_PCS] are
    bits 0, 1 and 2. *)
Definition got_vstate (s : Task) : bool := Z.testbit (m_dr s) 0.
Definition got_medium (s : Task) : bool := Z.testbit (m_dr s) 1.
Definition got_pcs (s : Task) : bool := Z.testbit (m_dr s) 2.

Definition readiness_incomplete (s : Task) : Prop :=
  got_vstate s = false \/ got_medium s = false \/ got_pcs s = false.

(** The spec's words for the updates that reset the lost-comms timer: a
    heartbeat from another system that carries the console bit, or a medium
    update that reports underwater. *)
Definition spec_resets_lost_comms (system_id : Z) (msg : Message) : bool :=
  match msg with
  | MsgHeartbeat src => negb (src =? system_id) && negb (Z.land src 0x4000 =? 0)
  | MsgVehicleMedium MediumHandler.VM_UNDERWATER => true
  | _ => false
  end.

(** The spec's words for the plan-control phase being idle. *)
Definition spec_phase_idle (p : PCS_State) : bool :=
  match p with
  | PCS_BLOCKED | PCS_READY => true
  | _ => false
  end.

(** Events that are not a plan command of another system. *)
Definition keeps_control (system_id : Z) (e : Event) : bool :=
  match e with
  | Deliver (MsgPlanControl src) => src =? system_id
  | _ => true
  end.

Definition is_safety_zone (o : Output) : bool :=
  match o with
  | Dispatch pg => String.eqb (plan_id pg) "safety_zone"
  | EntityState _ _ => false
  end.

(** ** Auxiliary definitions for histories *)

(** Deliveries that set a readiness bit. *)
Definition sets_vstate (e : Event) : bool :=
  match e with
  | Deliver (MsgVehicleState m) => negb (VS_OpMode_eqb m VS_BOOT)
  | _ => false
  end.

Definition sets_medium (e : Event) : bool :=
  match e with
  | Deliver (MsgVehicleMedium _) => true
  | _ => false
  end.

Definition sets_pcs (e : Event) : bool :=
  match e with
  | Deliver (MsgPlanControlState _) => true
  | _ => false
  end.

(** The value carried by the last event of a kind, [d] if there is none. *)
Definition latest {A : Type} (pick : Event -> option A)
    (es : list Event) (d : A) : A :=
  fold_left (fun acc e => match pick e with Some a => a | None => acc end) es d.

Definition pick_pcs (e : Event) : option PlanControlState :=
  match e with
  | Deliver (MsgPlanControlState m) => Some m
  | _ => None
  end.

Definition pick_medium (e : Event) : option MediumHandler.Medium :=
  match e with
  | Deliver (MsgVehicleMedium m) => Some m
  | _ => None
  end.

Definition pick_op_mode (e : Event) : option VS_OpMode :=
  match e with
  | Deliver (MsgVehicleState m) => Some m
  | _ => None
  end.

Definition pick_fix (e : Event) : option EstimatedState :=
  match e with
  | Deliver (MsgEstimatedState m) => Some m
  | _ => None
  end.

(** The distance check of [consume(EstimatedState)] on a fix. *)
Definition distance_check
    (toWGS84 : EstimatedState -> spec_float * spec_float)
    (WGS84_distance :
       spec_float -> spec_float -> spec_float ->
       spec_float -> spec_float -> spec_float -> spec_float)
    (msg : EstimatedState) : bool :=
  negb (SFltb c_safety_dist
          (WGS84_distance (fst (toWGS84 msg)) (snd (toWGS84 msg))
             (S754_zero false) (S754_zero false) (S754_zero false)
             (S754_zero false))).

(** The thresholds and the configuration after start-up with [cfg]. *)
Definition configured (cfg : Arguments) (s : Task) : Prop :=
  Counter.top (m_fail_timer s) = c_fail_timeout /\
  Counter.top (m_lost_coms_timer s) = timeout cfg /\
  m_args s = cfg.

(** The plans the task asks for. *)
Definition plan_ids : list string :=
  ["safety_zone"; "surface"; "sk"; "safety_surface"; "safety_sk"].

Definition known_output (o : Output) : Prop :=
  match o with
  | Dispatch pg =>
      op pg = OP_REQUEST /\ cmd pg = CMD_EXECUTE /\
      params pg = "calibrate=false;ignore_errors=true" /\
      In (plan_id pg) plan_ids
  | EntityState st code => st = ESTA_NORMAL /\ code = CODE_ACTIVE
  end.

(** The time the waits of a history add up to, and their being forward. *)
Fixpoint total_wait (es : list Event) : Q :=
  match es with
  | [] => 0
  | Elapse dt :: es' => dt + total_wait es'
  | _ :: es' => total_wait es'
  end.

Fixpoint waits_forward (es : list Event) : Prop :=
  match es with
  | [] => True
  | Elapse dt :: es' => (0 <= dt)%Q /\ waits_forward es'
  | _ :: es' => waits_forward es'
  end.

(** A request to hold station: the report of active status goes with it. *)
Definition is_hold_request (o : Output) : bool :=
  match o with
  | Dispatch pg => negb (String.eqb (plan_id pg) "safety_zone")
  | EntityState _ _ => true
  end.

(** A dispatched request for one of the four plans that hold station. *)
Definition hold_plan_ids : list string :=
  ["surface"; "sk"; "safety_surface"; "safety_sk"].

Definition is_hold_dispatch (o : Output) : bool :=
  match o with
  | Dispatch pg => existsb (String.eqb (plan_id pg)) hold_plan_ids
  | EntityState _ _ => false
  end.

(** ** Actuators.ServoTest: the servo sweep test task

    The task drives up to four fins to and fro: every [cycle] seconds, for
    [duration] minutes, it negates the commanded position of the selected
    fins and sends the new commands.  The member functions pass the task
    object along and return what they dispatch; [spew] traces are left
    out. *)
Module ServoTest.

(** Number of fins. *)
Definition c_fins : nat := 4.

Record Arguments : Type := mkArgs {
  duration : Q;
  cycle : Q;
  index : string;
  sm_state : bool
}.

(** [IMC::SetServoPosition]: the fields the task writes. *)
Record SetServoPosition : Type := mkSSP {
  id : Z;
  value : spec_float
}.

(** [m_fins] and [m_servo_pos] are arrays of [c_fins] entries, held as
    lists; [m_delta] is never used. *)
Record Task : Type := mkTask {
  m_args : Arguments;
  m_fins : list SetServoPosition;
  m_timer : Counter.t;
  m_cycle : Counter.t;
  m_servo_pos : list spec_float;
  m_sm_state : bool
}.

(** [a[i] = v]; the task only writes below the length of its arrays. *)
Fixpoint store {A : Type} (i : nat) (v : A) (a : list A) : list A :=
  match a, i with
  | [], _ => []
  | _ :: t, O => v :: t
  | h :: t, S j => h :: store j v t
  end.

Definition set_fins (f : list SetServoPosition) (s : Task) : Task :=
  mkTask (m_args s) f (m_timer s) (m_cycle s) (m_servo_pos s) (m_sm_state s).

Definition set_servo_pos (p : list spec_float) (s : Task) : Task :=
  mkTask (m_args s) (m_fins s) (m_timer s) (m_cycle s) p (m_sm_state s).

Definition upd_timer (f : Counter.t -> Counter.t) (s : Task) : Task :=
  mkTask (m_args s) (m_fins s) (f (m_timer s)) (m_cycle s) (m_servo_pos s)
         (m_sm_state s).

Definition upd_cycle (f : Counter.t -> Counter.t) (s : Task) : Task :=
  mkTask (m_args s) (m_fins s) (m_timer s) (f (m_cycle s)) (m_servo_pos s)
         (m_sm_state s).

Definition set_sm_state (b : bool) (s : Task) : Task :=
  mkTask (m_args s) (m_fins s) (m_timer s) (m_cycle s) (m_servo_pos s) b.

Definition set_args (a : Arguments) (s : Task) : Task :=
  mkTask a (m_fins s) (m_timer s) (m_cycle s) (m_servo_pos s) (m_sm_state s).

Section Members.

(** [(float) (Math::c_pi / 2)]: the constant belongs to the DUNE core
    library. *)
Variable half_pi : spec_float.

(** [std::atoi] of the C library. *)
Variable atoi : string -> Z.

(** Update internal state with new parameter values; [cfg] is what the
    framework has loaded into [m_args]. *)
Definition onUpdateParameters (cfg : Arguments) (s : Task) : Task :=
  let s := set_args cfg s in
  let s := set_sm_state (sm_state (m_args s)) s in
  if m_sm_state s
  then upd_cycle (Counter.setTop (cycle (m_args s)))
         (upd_timer (Counter.setTop (duration (m_args s) * 60)) s)
  else s.

(** One round of the loop of [onResourceInitialization]. *)
Definition init_fin (s : Task) (i : nat) : Task :=
  let s := set_fins (store i (mkSSP (Z.of_nat i) half_pi) (m_fins s)) s in
  set_servo_pos (store i (S754_zero false) (m_servo_pos s)) s.

(** Initialize resources: initialize fin commands. *)
Definition onResourceInitialization (s : Task) : Task :=
  fold_left init_fin (seq 0 c_fins) s.

(** [m_fins[i].value = -(m_fins[i].value); dispatch(m_fins[i]);] for an
    index within the array, the only ones the task uses. *)
Definition flipped (f : SetServoPosition) : SetServoPosition :=
  mkSSP (id f) (SFopp (value f)).

Definition flip_fin (i : nat) (s : Task) : Task * list SetServoPosition :=
  match nth_error (m_fins s) i with
  | Some f => (set_fins (store i (flipped f) (m_fins s)) s, [flipped f])
  | None => (s, [])
  end.

Definition flip_next (acc : Task * list SetServoPosition) (i : nat)
    : Task * list SetServoPosition :=
  let '(s1, o1) := flip_fin i (fst acc) in (s1, snd acc ++ o1).

Definition dispatchFins (s : Task) : Task * list SetServoPosition :=
  if String.eqb (index (m_args s)) "All"
  then fold_left flip_next (seq 0 c_fins) (s, [])
  else
    let i := atoi (index (m_args s)) in
    if (0 <=? i) && (i <? 4) then flip_fin (Z.to_nat i) s else (s, []).

(** What [onMain] does before its loop. *)
Definition onMain_enter (s : Task) : Task :=
  upd_cycle (Counter.setTop (cycle (m_args s)))
    (upd_timer (Counter.setTop (duration (m_args s) * 60)) s).

(** The body of the loop of [onMain], up to [waitForMessages]. *)
Definition onMain_round (s : Task) : Task * list SetServoPosition :=
  if m_sm_state s
  then
    if negb (Counter.overflow (m_timer s))
    then
      if Counter.overflow (m_cycle s)
      then dispatchFins (upd_cycle Counter.reset s)
      else (s, [])
    else (set_sm_state false s, [])
  else (s, []).

(** The loop: rounds, the time [waitForMessages] lets pass, and the
    parameter updates it handles. *)
Inductive Event : Type :=
| Round
| Wait (dt : Q)
| Update (cfg : Arguments).

Definition wait (dt : Q) (s : Task) : Task :=
  upd_cycle (Counter.advance dt) (upd_timer (Counter.advance dt) s).

Definition step (e : Event) (s : Task) : Task * list SetServoPosition :=
  match e with
  | Round => onMain_round s
  | Wait dt => (wait dt s, [])
  | Update cfg => (onUpdateParameters cfg s, [])
  end.

Fixpoint run (es : list Event) (s : Task) : Task * list SetServoPosition :=
  match es with
  | [] => (s, [])
  | e :: es' =>
      let '(s1, o1) := step e s in
      let '(s2, o2) := run es' s1 in
      (s2, o1 ++ o2)
  end.

(** A fin command as the task keeps it once initialized: its own index,
    and the half turn one way or the other. *)
Definition fin_ok (i : nat) (f : SetServoPosition) : Prop :=
  id f = Z.of_nat i /\ (value f = half_pi \/ value f = SFopp half_pi).

Definition fins_ok (fins : list SetServoPosition) : Prop :=
  exists f0 f1 f2 f3,
    fins = [f0; f1; f2; f3] /\
    fin_ok 0 f0 /\ fin_ok 1 f1 /\ fin_ok 2 f2 /\ fin_ok 3 f3.

Definition command_ok (f : SetServoPosition) : Prop :=
  0 <= id f < 4 /\ (value f = half_pi \/ value f = SFopp half_pi).

End Members.

(** Everything of the task object but the fin commands. *)
Definition rest (s : Task) :=
  (m_args s, m_timer s, m_cycle s, m_servo_pos s, m_sm_state s).

(** The time the waits of a history add up to, and their being forward. *)
Fixpoint total_wait (es : list Event) : Q :=
  match es with
  | [] => 0
  | Wait dt :: es' => dt + total_wait es'
  | _ :: es' => total_wait es'
  end.

Fixpoint waits_forward (es : list Event) : Prop :=
  match es with
  | [] => True
  | Wait dt :: es' => (0 <= dt)%Q /\ waits_forward es'
  | _ :: es' => waits_forward es'
  end.

Definition is_update (e : Event) : bool :=
  match e with Update _ => true | _ => false end.

(** Sample data: [pi / 2] in binary32, a reading of decimal numbers for
    [atoi], and a task with four fins at rest. *)
Definition half_pi_f : spec_float := S754_finite false 13176795 (-23).

Definition is_space (c : Ascii.ascii) : bool :=
  let n := Ascii.nat_of_ascii c in
  Nat.eqb n 32 || (Nat.leb 9 n && Nat.leb n 13).

Fixpoint skip_spaces (str : string) : string :=
  match str with
  | String c rest => if is_space c then skip_spaces rest else str
  | EmptyString => str
  end.

Fixpoint read_digits (acc : Z) (str : string) : Z :=
  match str with
  | String c rest =>
      let n := Z.of_nat (Ascii.nat_of_ascii c) - 48 in
      if (0 <=? n) && (n <=? 9) then read_digits (10 * acc + n) rest else acc
  | EmptyString => acc
  end.

(** [std::atoi] where C defines it (the value fits an [int]): white space
    is skipped, then an optional sign and the decimal digits that follow are
    read; text that starts with no number reads as 0. *)
Definition c_atoi (str : string) : Z :=
  match skip_spaces str with
  | String c rest =>
      if Nat.eqb (Ascii.nat_of_ascii c) 45 then - read_digits 0 rest
      else if Nat.eqb (Ascii.nat_of_ascii c) 43 then read_digits 0 rest
      else read_digits 0 (String c rest)
  | EmptyString => 0
  end.

Definition blank : Task :=
  mkTask (mkArgs 1 1 "All" false)
         (repeat (mkSSP 0 (S754_zero false)) 4)
         (Counter.mk 60 0) (Counter.mk 1 0)
         (repeat (S754_zero false) 4) false.

(** The test running on all fins, ten seconds in, a cycle just over. *)
Definition sweeping : Task :=
  mkTask (mkArgs 1 1 "All" true)
         [mkSSP 0 half_pi_f; mkSSP 1 half_pi_f;
          mkSSP 2 half_pi_f; mkSSP 3 half_pi_f]
         (Counter.mk 60 10) (Counter.mk 1 1)
         (repeat (S754_zero false) 4) true.

(** The same for fin 2 only. *)
Definition sweeping_fin2 : Task :=
  set_args (mkArgs 1 1 "2" true) sweeping.

Definition loop_sample : list Event :=
  [Round; Wait (1 # 10); Round; Wait (1 # 10); Round].

End ServoTest.

(** ** Properties *)

(** *** The decision procedure in closed form *)

Lemma call_task (s : Task) :
  call task s =
    if negb (m_dr s =? GOT_ALL) then (s, [])
    else if negb (MediumHandler.inWater (m_medium s)) then (s, [])
    else if negb (isSafe s) then
      let s' := with_plan_id "safety_zone"
                  (set_safety true (upd_lost_coms_timer Counter.reset s)) in
      (s', [Dispatch (m_pg s')])
    else if negb (sk (m_args s)) && negb (asc (m_args s)) then (s, [])
    else if negb (m_serv_err s) then (s, [])
    else if negb (isIdle s) then (s, [])
    else if hasFailed s then
      if Counter.overflow (m_fail_timer s)
      then hold_station "safety_"
             (with_plan_id "safety_" (upd_fail_timer Counter.reset s))
      else (with_plan_id EmptyString s, [])
    else hold_station EmptyString (with_plan_id EmptyString s).
Proof.
  unfold call, task, goToSafety, dispatch, setEntityState, hold_station, issue.
  unfold bind, gets, when, modify, emit, return_, ret.
  destruct (m_dr s =? GOT_ALL); simpl; [| reflexivity].
  destruct (MediumHandler.inWater (m_medium s)); simpl; [| reflexivity].
  destruct (isSafe s); simpl; [| reflexivity].
  destruct (sk (m_args s)) eqn:Hsk, (asc (m_args s)) eqn:Hasc; simpl;
    try reflexivity;
    (destruct (m_serv_err s); simpl; [| reflexivity]);
    (destruct (isIdle s); simpl; [| reflexivity]);
    unfold hasFailed; simpl;
    (destruct (PCS_LastOutcome_eqb (last_outcome (m_pcs s)) LPO_FAILURE); simpl);
    try (destruct (Counter.overflow (m_fail_timer s)); simpl; [| reflexivity]);
    (destruct (MediumHandler.isUnderwater (m_medium s)); simpl);
    rewrite ?Hsk, ?Hasc; reflexivity.
Qed.

(** *** The safety verdict *)

(** C1. For every task object, [isSafe] evaluates its conditions in priority
    order: true if near the safety position; else true if safety mode is
    active; else true if the lost-comms timer has not overflowed; else false
    if the vehicle is in service or error and the plan-control phase is idle
    (blocked or ready); else false if a command was issued; else true. *)
Theorem isSafe_priority_order (s : Task) :
  isSafe s =
    if m_is_near s then true
    else if m_safety s then true
    else if negb (Qle_bool (Counter.top (m_lost_coms_timer s))
                           (Counter.elapsed (m_lost_coms_timer s)))
    then true
    else if m_serv_err s && spec_phase_idle (state (m_pcs s)) then false
    else if m_issued s then false
    else true.
Proof.
  unfold isSafe, isNear, isIdle, Counter.overflow.
  destruct (m_is_near s); [reflexivity |].
  destruct (m_safety s); [reflexivity |].
  destruct (Qle_bool _ _); [| reflexivity].
  cbn [negb].
  now destruct (state (m_pcs s)).
Qed.

Lemma isSafe_in_safety_mode (s : Task) : m_safety s = true -> isSafe s = true.
Proof.
  intros H. unfold isSafe. rewrite H. now destruct (isNear s).
Qed.

(** *** The message handlers *)

Section Handlers.

Variable system_id : Z.
Variable toWGS84 : EstimatedState -> spec_float * spec_float.
Variable WGS84_distance :
  spec_float -> spec_float -> spec_float ->
  spec_float -> spec_float -> spec_float -> spec_float.

Local Abbreviation consume' := (consume system_id toWGS84 WGS84_distance).
Local Abbreviation step' := (step system_id toWGS84 WGS84_distance).
Local Abbreviation run' := (run system_id toWGS84 WGS84_distance).

Lemma call_consume_EstimatedState (msg : EstimatedState) (s : Task) :
  call (consume_EstimatedState toWGS84 WGS84_distance msg) s =
    (set_is_near
       (negb (SFltb c_safety_dist
                (WGS84_distance (fst (toWGS84 msg)) (snd (toWGS84 msg))
                   (S754_zero false) (S754_zero false) (S754_zero false)
                   (S754_zero false))))
       s, []).
Proof.
  unfold call, consume_EstimatedState.
  destruct (toWGS84 msg) as [la lo]; cbn [fst snd].
  now destruct (SFltb _ _).
Qed.

Lemma call_consume_Heartbeat (src : Z) (s : Task) :
  call (consume_Heartbeat system_id src) s =
    (if negb (src =? system_id) && negb (Z.land src 0x4000 =? 0)
     then upd_lost_coms_timer Counter.reset s
     else s, []).
Proof.
  unfold call, consume_Heartbeat, bind, when, modify, return_, ret.
  destruct (src =? system_id); [reflexivity |].
  now destruct (Z.land src 0x4000 =? 0).
Qed.

Lemma call_consume_PlanControlState (msg : PlanControlState) (s : Task) :
  call (consume_PlanControlState msg) s =
    (set_pcs msg (upd_dr (fun d => Z.lor d GOT_PCS) s), []).
Proof. reflexivity. Qed.

Lemma call_consume_VehicleState (m : VS_OpMode) (s : Task) :
  call (consume_VehicleState m) s =
    (set_serv_err (VS_OpMode_eqb m VS_SERVICE || VS_OpMode_eqb m VS_ERROR)
       (if VS_OpMode_eqb m VS_BOOT then s
        else upd_dr (fun d => Z.lor d GOT_VSTATE) s), []).
Proof. now destruct m. Qed.

Lemma call_consume_VehicleMedium (m : MediumHandler.Medium) (s : Task) :
  call (consume_VehicleMedium m) s =
    (let s' := upd_medium (MediumHandler.update m)
                 (upd_dr (fun d => Z.lor d GOT_MEDIUM) s) in
     if MediumHandler.isUnderwater m
     then upd_lost_coms_timer Counter.reset s' else s', []).
Proof. now destruct m. Qed.

Lemma call_consume_PlanControl (src : Z) (s : Task) :
  call (consume_PlanControl system_id src) s =
    (if src =? system_id then s
     else set_safety false (set_issued false s), []).
Proof.
  unfold call, consume_PlanControl, bind, when, modify, ret.
  destruct (src =? system_id); [| reflexivity].
  now destruct s.
Qed.

(** C6. A plan command whose issuer is not the system itself clears
    [m_issued] and [m_safety] and touches nothing else, so the following
    ticks no longer find either flag set; a plan command of the system
    itself leaves the task object, both flags included, as it is.  Nothing
    is sent either way. *)
Theorem consume_PlanControl_hands_over (src : Z) (s : Task) :
  let s' := fst (call (consume_PlanControl system_id src) s) in
  snd (call (consume_PlanControl system_id src) s) = [] /\
  if src =? system_id
  then s' = s
  else s' = set_safety false (set_issued false s) /\
       m_issued s' = false /\ m_safety s' = false.
Proof.
  rewrite call_consume_PlanControl. cbn [fst snd].
  split; [reflexivity |].
  destruct (src =? system_id); [reflexivity |].
  now repeat split.
Qed.

(** C5. Delivering a message resets the lost-comms timer exactly when the
    message is a heartbeat of another system that carries the console bit
    or a medium update reporting underwater; every other message leaves
    the timer as it was.  No earlier heartbeat is needed for the medium
    update to reset it: the statement holds in every state. *)
Theorem lost_coms_reset_iff (msg : Message) (s : Task) :
  m_lost_coms_timer (fst (call (consume' msg) s)) =
    if spec_resets_lost_comms system_id msg
    then Counter.reset (m_lost_coms_timer s)
    else m_lost_coms_timer s.
Proof.
  destruct msg as [m | src | src | m | m | m]; cbn [consume].
  - now rewrite call_consume_EstimatedState.
  - rewrite call_consume_Heartbeat. cbn [spec_resets_lost_comms].
    now destruct (negb (src =? system_id) && negb (Z.land src 0x4000 =? 0)).
  - rewrite call_consume_PlanControl.
    now destruct (src =? system_id).
  - now rewrite call_consume_PlanControlState.
  - rewrite call_consume_VehicleState. now destruct (VS_OpMode_eqb m VS_BOOT).
  - rewrite call_consume_VehicleMedium. now destruct m.
Qed.

(** C7. The reference point of the distance check is the fixed point
    [rlat = rlon = 0.0]; no safety location is ever read, so none is
    defined.  Still a fix further than [c_safety_dist] from that point
    clears [m_is_near], whatever the task object was before. *)
Theorem consume_EstimatedState_far_clears_near (msg : EstimatedState) (s : Task) :
  SFltb c_safety_dist
    (WGS84_distance (fst (toWGS84 msg)) (snd (toWGS84 msg))
       (S754_zero false) (S754_zero false) (S754_zero false)
       (S754_zero false)) = true ->
  m_is_near (fst (call (consume_EstimatedState toWGS84 WGS84_distance msg) s))
  = false.
Proof.
  intros H. rewrite call_consume_EstimatedState, H. reflexivity.
Qed.

(** *** What a step leaves alone *)

Lemma hold_station_cases (pre : string) (s : Task) :
  hold_station pre s = (s, []) \/
  (MediumHandler.isUnderwater (m_medium s) = true /\ asc (m_args s) = true /\
   hold_station pre s = issue (pre ++ "surface")%string s) \/
  (MediumHandler.isUnderwater (m_medium s) = false /\ sk (m_args s) = true /\
   hold_station pre s = issue (pre ++ "sk")%string s).
Proof.
  unfold hold_station.
  destruct (MediumHandler.isUnderwater (m_medium s));
    [destruct (asc (m_args s)) | destruct (sk (m_args s))]; auto.
Qed.

(** [task] only writes the two timers, [m_safety], [m_issued] and the plan
    identifier of the request buffer. *)
Lemma task_frame (s : Task) :
  let s' := fst (call task s) in
  m_dr s' = m_dr s /\ m_medium s' = m_medium s /\
  m_serv_err s' = m_serv_err s /\ m_pcs s' = m_pcs s /\
  m_is_near s' = m_is_near s /\ m_args s' = m_args s /\
  op (m_pg s') = op (m_pg s) /\ cmd (m_pg s') = cmd (m_pg s) /\
  params (m_pg s') = params (m_pg s).
Proof.
  rewrite call_task.
  repeat match goal with
         | |- context [if ?b then _ else _] => destruct b
         end;
    try (cbn; tauto);
    match goal with
    | |- context [hold_station ?pre ?t] =>
        destruct (hold_station_cases pre t) as [-> | [(_ & _ & ->) | (_ & _ & ->)]]
    end; cbn; tauto.
Qed.

Lemma consume_frame (msg : Message) (s : Task) :
  let s' := fst (call (consume' msg) s) in
  snd (call (consume' msg) s) = [] /\
  m_pg s' = m_pg s /\
  (m_dr s' = m_dr s \/ exists c, m_dr s' = Z.lor (m_dr s) c).
Proof.
  destruct msg as [m | src | src | m | m | m]; cbn [consume].
  - rewrite call_consume_EstimatedState. cbn. auto.
  - rewrite call_consume_Heartbeat.
    destruct (negb (src =? system_id) && negb (Z.land src 0x4000 =? 0));
      cbn; auto.
  - rewrite call_consume_PlanControl. destruct (src =? system_id); cbn; auto.
  - rewrite call_consume_PlanControlState. cbn. eauto.
  - rewrite call_consume_VehicleState.
    destruct (VS_OpMode_eqb m VS_BOOT); cbn; eauto.
  - rewrite call_consume_VehicleMedium.
    destruct (MediumHandler.isUnderwater m); cbn; eauto.
Qed.

Lemma step_m_dr (e : Event) (s : Task) :
  m_dr (fst (step' e s)) = m_dr s \/
  exists c, m_dr (fst (step' e s)) = Z.lor (m_dr s) c.
Proof.
  destruct e as [msg | | dt]; cbn [step].
  - apply consume_frame.
  - left. apply task_frame.
  - left. reflexivity.
Qed.

(** Readiness bits are never cleared. *)
Lemma step_readiness_monotone (e : Event) (s : Task) :
  readiness_incomplete (fst (step' e s)) -> readiness_incomplete s.
Proof.
  unfold readiness_incomplete, got_vstate, got_medium, got_pcs.
  destruct (step_m_dr e s) as [-> | [c ->]]; [tauto |].
  rewrite !Z.lor_spec, !orb_false_iff. tauto.
Qed.

Lemma run_cons (e : Event) (es : list Event) (s : Task) :
  run' (e :: es) s =
    (fst (run' es (fst (step' e s))),
     snd (step' e s) ++ snd (run' es (fst (step' e s)))).
Proof.
  cbn [run]. destruct (step' e s) as [s1 o1]. cbn [fst snd].
  now destruct (run' es s1).
Qed.

Lemma run_readiness_monotone (es : list Event) (s : Task) :
  readiness_incomplete (fst (run' es s)) -> readiness_incomplete s.
Proof.
  revert s. induction es as [| e es IH]; intros s; [exact (fun H => H) |].
  rewrite run_cons. cbn [fst]. intros H.
  apply (step_readiness_monotone e), IH, H.
Qed.

Lemma readiness_incomplete_not_all (s : Task) :
  readiness_incomplete s -> (m_dr s =? GOT_ALL) = false.
Proof.
  unfold readiness_incomplete, got_vstate, got_medium, got_pcs.
  intros H. apply Z.eqb_neq. intros E. rewrite E in H.
  cbn in H. intuition discriminate.
Qed.

Lemma task_guard (s : Task) :
  readiness_incomplete s \/ MediumHandler.inWater (m_medium s) = false ->
  call task s = (s, []).
Proof.
  intros H. rewrite call_task.
  destruct H as [H | H].
  - now rewrite (readiness_incomplete_not_all s H).
  - rewrite H. now destruct (m_dr s =? GOT_ALL).
Qed.

Lemma step_silent_until_ready (e : Event) (s : Task) :
  readiness_incomplete s -> snd (step' e s) = [].
Proof.
  intros H. destruct e as [msg | | dt]; cbn [step].
  - apply consume_frame.
  - rewrite task_guard; auto.
  - reflexivity.
Qed.

Lemma run_silent_until_ready (es : list Event) (s : Task) :
  readiness_incomplete (fst (run' es s)) -> snd (run' es s) = [].
Proof.
  revert s. induction es as [| e es IH]; intros s; [reflexivity |].
  rewrite run_cons. cbn [fst snd]. intros H.
  rewrite (IH _ H), app_nil_r.
  apply step_silent_until_ready.
  apply (step_readiness_monotone e), (run_readiness_monotone es), H.
Qed.

(** C4. Take any sequence of message deliveries, ticks and waits, from any
    task object.  If afterwards one of the three readiness bits is unset, or
    the vehicle is not in water, the next tick sends nothing and leaves the
    task object as it is; and while a readiness bit is still unset, nothing
    at all has been sent during the whole sequence. *)
Theorem task_waits_for_readiness
    (es : list Event) (s0 s : Task) (out : list Output) :
  run' es s0 = (s, out) ->
  readiness_incomplete s \/ MediumHandler.inWater (m_medium s) = false ->
  call task s = (s, []) /\ (readiness_incomplete s -> out = []).
Proof.
  intros Hrun H. split; [now apply task_guard |].
  intros Hr.
  change out with (snd (s, out)). rewrite <- Hrun.
  apply run_silent_until_ready. now rewrite Hrun.
Qed.

(** *** The request buffer *)

Lemma startup_pg_configured (cfg : Arguments) : pg_configured (fst (startup cfg)).
Proof. now repeat split. Qed.

Lemma step_pg_configured (e : Event) (s : Task) :
  pg_configured s -> pg_configured (fst (step' e s)).
Proof.
  unfold pg_configured. destruct e as [msg | | dt]; cbn [step].
  - destruct (consume_frame msg s) as (_ & -> & _). tauto.
  - destruct (task_frame s) as (_ & _ & _ & _ & _ & _ & -> & -> & ->). tauto.
  - tauto.
Qed.

Lemma run_pg_configured (es : list Event) (s : Task) :
  pg_configured s -> pg_configured (fst (run' es s)).
Proof.
  revert s. induction es as [| e es IH]; intros s H; [exact H |].
  rewrite run_cons. cbn [fst]. now apply IH, step_pg_configured.
Qed.

(** C3. In any task object reached from start-up by deliveries, ticks and
    waits, with all data seen and the vehicle in water, a tick with an unsafe
    verdict resets the lost-comms timer, sets [m_safety], and sends exactly
    one message: the request to execute plan [safety_zone] with parameters
    [calibrate=false;ignore_errors=true].  Nothing else is written or sent. *)
Theorem task_unsafe_goes_to_safety
    (cfg : Arguments) (es : list Event) (s : Task) :
  fst (run' es (fst (startup cfg))) = s ->
  m_dr s = GOT_ALL ->
  MediumHandler.inWater (m_medium s) = true ->
  isSafe s = false ->
  call task s =
    (upd_pg (fun _ => safety_request)
       (set_safety true (upd_lost_coms_timer Counter.reset s)),
     [Dispatch safety_request]).
Proof.
  intros Hs Hdr Hw Hsafe.
  assert (Hpg : pg_configured s).
  { rewrite <- Hs. apply run_pg_configured, startup_pg_configured. }
  destruct Hpg as (Hop & Hcmd & Hpar).
  rewrite call_task, Hdr, Hw, Hsafe. cbn.
  unfold with_plan_id, upd_pg, upd_plan_id, safety_request. cbn.
  now rewrite Hop, Hcmd, Hpar.
Qed.

(** *** Safety mode *)

Lemma task_in_safety_mode (s : Task) :
  m_safety s = true ->
  m_safety (fst (call task s)) = true /\
  existsb is_safety_zone (snd (call task s)) = false.
Proof.
  intros H. rewrite call_task, (isSafe_in_safety_mode s H). cbn [negb].
  repeat match goal with
         | |- context [if ?b then _ else _] => destruct b
         end;
    try (cbn; now rewrite ?H);
    match goal with
    | |- context [hold_station ?pre ?t] =>
        destruct (hold_station_cases pre t) as [-> | [(_ & _ & ->) | (_ & _ & ->)]]
    end; cbn; now rewrite ?H.
Qed.

Lemma step_in_safety_mode (e : Event) (s : Task) :
  m_safety s = true ->
  keeps_control system_id e = true ->
  m_safety (fst (step' e s)) = true /\
  existsb is_safety_zone (snd (step' e s)) = false.
Proof.
  intros H Hk. destruct e as [msg | | dt]; cbn [step].
  - destruct (consume_frame msg s) as (-> & _). split; [| reflexivity].
    destruct msg as [m | src | src | m | m | m]; cbn [consume].
    + now rewrite call_consume_EstimatedState.
    + rewrite call_consume_Heartbeat.
      now destruct (negb (src =? system_id) && negb (Z.land src 0x4000 =? 0)).
    + rewrite call_consume_PlanControl. cbn in Hk. now rewrite Hk.
    + now rewrite call_consume_PlanControlState.
    + rewrite call_consume_VehicleState. now destruct (VS_OpMode_eqb m VS_BOOT).
    + rewrite call_consume_VehicleMedium.
      now destruct (MediumHandler.isUnderwater m).
  - now apply task_in_safety_mode.
  - now split.
Qed.

(** C8. Once [m_safety] is set, the verdict is safe, and no sequence of
    ticks -- with waits and message deliveries in between, a plan command of
    another system excepted -- sends a [safety_zone] request again;
    [m_safety] is still set afterwards. *)
Theorem no_second_safety_zone
    (es : list Event) (s s' : Task) (out : list Output) :
  m_safety s = true ->
  forallb (keeps_control system_id) es = true ->
  run' es s = (s', out) ->
  isSafe s = true /\ m_safety s' = true /\ existsb is_safety_zone out = false.
Proof.
  intros H Hk Hrun. split; [now apply isSafe_in_safety_mode |].
  change s' with (fst (s', out)). change out with (snd (s', out)) at 2.
  rewrite <- Hrun. clear Hrun s' out.
  revert s H. induction es as [| e es IH]; intros s H; [now split |].
  cbn [forallb] in Hk. apply andb_prop in Hk. destruct Hk as [Hk1 Hk2].
  destruct (step_in_safety_mode e s H Hk1) as [Hs Ho].
  destruct (IH Hk2 _ Hs) as [IH1 IH2].
  rewrite run_cons. cbn [fst snd]. split; [exact IH1 |].
  now rewrite existsb_app, Ho, IH2.
Qed.

End Handlers.

(** *** Holding station on a safe verdict *)

Lemma at_surface (s : Task) :
  MediumHandler.inWater (m_medium s) = true ->
  MediumHandler.isUnderwater (m_medium s) = false ->
  MediumHandler.isWaterSurface (m_medium s) = true.
Proof.
  unfold MediumHandler.inWater. intros H1 H2. now rewrite H2, orb_false_r in H1.
Qed.

(** C2. On a tick with all data seen, the vehicle in water and a safe
    verdict, either nothing is sent, or exactly one request is sent, followed
    by the report of active status, and then: keep-station or ascend is
    enabled, the vehicle is in service or error, plan control is idle,
    [m_issued] is set, and the plan is [surface] (underwater, ascend enabled,
    last outcome not failure), [sk] (at the surface, keep-station enabled,
    last outcome not failure), or [safety_surface] / [safety_sk] (same
    medium and flag, last outcome failure, fail timer overflowed and reset by
    the tick).  After a failure with the fail timer not overflowed nothing is
    sent.  Conversely the table is decided in full: with both flags off, or
    the vehicle not in service or error, or plan control not idle, the tick
    does nothing at all; with the flag of the current medium off it sends
    nothing and leaves [m_issued]; and in each of the four cases named above
    the tick does send that plan with the active status, sets [m_issued],
    and leaves the task object otherwise as it was but for the plan
    identifier and, on a retry, the fail timer reset. *)
Theorem task_safe_holds_station (s s' : Task) (out : list Output) :
  m_dr s = GOT_ALL ->
  MediumHandler.inWater (m_medium s) = true ->
  isSafe s = true ->
  call task s = (s', out) ->
  (hasFailed s = true -> Counter.overflow (m_fail_timer s) = false ->
   out = []) /\
  (out = [] \/
   exists id : string,
     out = [Dispatch (mkPG (op (m_pg s)) (cmd (m_pg s)) id (params (m_pg s)));
            EntityState ESTA_NORMAL CODE_ACTIVE] /\
     m_issued s' = true /\
     (sk (m_args s) = true \/ asc (m_args s) = true) /\
     m_serv_err s = true /\
     isIdle s = true /\
     ((id = "surface" /\
       MediumHandler.isUnderwater (m_medium s) = true /\
       asc (m_args s) = true /\ hasFailed s = false /\
       m_fail_timer s' = m_fail_timer s) \/
      (id = "sk" /\
       MediumHandler.isWaterSurface (m_medium s) = true /\
       sk (m_args s) = true /\ hasFailed s = false /\
       m_fail_timer s' = m_fail_timer s) \/
      (id = "safety_surface" /\
       MediumHandler.isUnderwater (m_medium s) = true /\
       asc (m_args s) = true /\ hasFailed s = true /\
       Counter.overflow (m_fail_timer s) = true /\
       m_fail_timer s' = Counter.reset (m_fail_timer s)) \/
      (id = "safety_sk" /\
       MediumHandler.isWaterSurface (m_medium s) = true /\
       sk (m_args s) = true /\ hasFailed s = true /\
       Counter.overflow (m_fail_timer s) = true /\
       m_fail_timer s' = Counter.reset (m_fail_timer s)))) /\
  ((sk (m_args s) = false /\ asc (m_args s) = false) \/
   m_serv_err s = false \/ isIdle s = false ->
   s' = s /\ out = []) /\
  ((if MediumHandler.isUnderwater (m_medium s)
    then asc (m_args s) else sk (m_args s)) = false ->
   out = [] /\ m_issued s' = m_issued s) /\
  (m_serv_err s = true -> isIdle s = true -> hasFailed s = false ->
   MediumHandler.isUnderwater (m_medium s) = true -> asc (m_args s) = true ->
   s' = set_issued true (with_plan_id "surface" s) /\
   out = [Dispatch (mkPG (op (m_pg s)) (cmd (m_pg s)) "surface"
                      (params (m_pg s)));
          EntityState ESTA_NORMAL CODE_ACTIVE]) /\
  (m_serv_err s = true -> isIdle s = true -> hasFailed s = false ->
   MediumHandler.isUnderwater (m_medium s) = false -> sk (m_args s) = true ->
   s' = set_issued true (with_plan_id "sk" s) /\
   out = [Dispatch (mkPG (op (m_pg s)) (cmd (m_pg s)) "sk"
                      (params (m_pg s)));
          EntityState ESTA_NORMAL CODE_ACTIVE]) /\
  (m_serv_err s = true -> isIdle s = true -> hasFailed s = true ->
   Counter.overflow (m_fail_timer s) = true ->
   MediumHandler.isUnderwater (m_medium s) = true -> asc (m_args s) = true ->
   s' = set_issued true
          (with_plan_id "safety_surface" (upd_fail_timer Counter.reset s)) /\
   out = [Dispatch (mkPG (op (m_pg s)) (cmd (m_pg s)) "safety_surface"
                      (params (m_pg s)));
          EntityState ESTA_NORMAL CODE_ACTIVE]) /\
  (m_serv_err s = true -> isIdle s = true -> hasFailed s = true ->
   Counter.overflow (m_fail_timer s) = true ->
   MediumHandler.isUnderwater (m_medium s) = false -> sk (m_args s) = true ->
   s' = set_issued true
          (with_plan_id "safety_sk" (upd_fail_timer Counter.reset s)) /\
   out = [Dispatch (mkPG (op (m_pg s)) (cmd (m_pg s)) "safety_sk"
                      (params (m_pg s)));
          EntityState ESTA_NORMAL CODE_ACTIVE]).
Proof.
  intros Hdr Hw Hsafe.
  rewrite call_task, Hdr, Hw, Hsafe.
  unfold hold_station, issue, with_plan_id. cbn.
  destruct (sk (m_args s)) eqn:Hsk, (asc (m_args s)) eqn:Hasc,
           (m_serv_err s) eqn:Hse, (isIdle s) eqn:Hidle,
           (hasFailed s) eqn:Hf,
           (Counter.overflow (m_fail_timer s)) eqn:Hov,
           (MediumHandler.isUnderwater (m_medium s)) eqn:Huw;
    cbn; intros E; injection E as <- <-;
    (split; [intros; try reflexivity; try discriminate |]);
    (split;
     [ try (left; reflexivity);
       right; eexists; (split; [reflexivity |]);
       repeat (split; [solve [reflexivity | auto] |]);
       pose proof (at_surface s Hw) as Hsurf;
       first [ left; now repeat split
             | right; left; now (repeat split; auto)
             | right; right; left; now repeat split
             | right; right; right; now (repeat split; auto) ]
     | ]);
    repeat match goal with
           | |- _ /\ _ => split
           | |- _ -> _ => intro
           | H : _ \/ _ |- _ => destruct H
           | H : _ /\ _ |- _ => destruct H
           end;
    try discriminate; reflexivity.
Qed.

(** C10 (as amended). On a tick with all data seen, the vehicle in water, a
    safe verdict, the vehicle in service or error, plan control idle and the
    last outcome a failure with the fail timer overflowed: if the vehicle is
    underwater with ascend disabled (keep-station enabled), or at the surface
    with keep-station disabled (ascend enabled), the tick resets the fail
    timer and sends nothing; besides the timer only the plan identifier of
    the request buffer is written, which is left as [safety_]. *)
Theorem failed_retry_resets_timer_only (s : Task) :
  m_dr s = GOT_ALL ->
  MediumHandler.inWater (m_medium s) = true ->
  isSafe s = true ->
  m_serv_err s = true ->
  isIdle s = true ->
  hasFailed s = true ->
  Counter.overflow (m_fail_timer s) = true ->
  (MediumHandler.isUnderwater (m_medium s) = true /\
   asc (m_args s) = false /\ sk (m_args s) = true) \/
  (MediumHandler.isWaterSurface (m_medium s) = true /\
   sk (m_args s) = false /\ asc (m_args s) = true) ->
  call task s =
    (with_plan_id "safety_" (upd_fail_timer Counter.reset s), []).
Proof.
  intros Hdr Hw Hsafe Hse Hidle Hf Hov Hgate.
  rewrite call_task, Hdr, Hw, Hsafe, Hse, Hidle, Hf, Hov.
  unfold hold_station. cbn.
  destruct Hgate as [(Huw & Hasc & Hsk) | (Hsurf & Hsk & Hasc)];
    rewrite Hsk, Hasc; cbn.
  - now rewrite Huw.
  - destruct (m_medium s); try discriminate Hsurf. reflexivity.
Qed.

(** *** Start-up *)

(** C9 (as amended). The constructor clears the readiness mask and sets
    [m_serv_err], [m_issued] and [m_safety] to false, but [m_is_near] to
    true; start-up does not change any of them. *)
Theorem new_Task_initial_state (cfg : Arguments) :
  let s := new_Task cfg in
  (m_dr s = GOT_NOTHING /\ m_serv_err s = false /\ m_issued s = false /\
   m_safety s = false /\ m_is_near s = true) /\
  (let s1 := fst (startup cfg) in
   m_dr s1 = m_dr s /\ m_serv_err s1 = m_serv_err s /\
   m_issued s1 = m_issued s /\ m_safety s1 = m_safety s /\
   m_is_near s1 = m_is_near s).
Proof. cbn. now repeat split. Qed.

(** C9 as stated fails: the constructor does not set [m_is_near] to false. *)
Lemma new_Task_near_not_false :
  ~ (forall cfg : Arguments,
       m_dr (new_Task cfg) = GOT_NOTHING /\
       m_serv_err (new_Task cfg) = false /\
       m_issued (new_Task cfg) = false /\
       m_safety (new_Task cfg) = false /\
       m_is_near (new_Task cfg) = false).
Proof.
  intros H. destruct (H default_cfg) as (_ & _ & _ & _ & Hnear).
  discriminate Hnear.
Qed.

(** C10 as stated fails: with the vehicle not in service or error the tick
    returns before the failure check; the fail timer keeps its value. *)
Lemma failed_retry_needs_service_or_error :
  ~ (forall s : Task,
       m_dr s = GOT_ALL ->
       MediumHandler.inWater (m_medium s) = true ->
       isSafe s = true ->
       hasFailed s = true ->
       Counter.overflow (m_fail_timer s) = true ->
       (MediumHandler.isUnderwater (m_medium s) = true /\
        asc (m_args s) = false) \/
       (MediumHandler.isWaterSurface (m_medium s) = true /\
        sk (m_args s) = false) ->
       m_fail_timer (fst (call task s)) = Counter.reset (m_fail_timer s) /\
       snd (call task s) = []).
Proof.
  intros H.
  destruct (H failed_underwater_manoeuvring) as [Ht _];
    try reflexivity.
  - left. split; reflexivity.
  - discriminate Ht.
Qed.

(** *** The theorems at work on the sample data *)

(** Idle at the surface near the reference point: the task keeps station. *)
Lemma idle_at_surface_keeps_station :
  fst (call task idle_at_surface)
  = set_issued true (with_plan_id "sk" idle_at_surface) /\
  snd (call task idle_at_surface)
  = [Dispatch (mkPG OP_REQUEST CMD_EXECUTE "sk"
                 "calibrate=false;ignore_errors=true");
     EntityState ESTA_NORMAL CODE_ACTIVE].
Proof.
  exact (proj1 (proj2 (proj2 (proj2 (proj2 (proj2
           (task_safe_holds_station idle_at_surface
              (fst (call task idle_at_surface))
              (snd (call task idle_at_surface))
              eq_refl eq_refl eq_refl (surjective_pairing _)))))))
           eq_refl eq_refl eq_refl eq_refl eq_refl).
Defined.

(** Drifting with no console in reach: the task sends the vehicle to the
    safety zone. *)
Lemma drifting_goes_to_safety :
  snd (call task
         (fst (run vehicle_id flat_toWGS84 flat_distance history_drifting
                 (fst (startup default_cfg)))))
  = [Dispatch safety_request].
Proof.
  exact (f_equal snd
           (task_unsafe_goes_to_safety vehicle_id flat_toWGS84 flat_distance
              default_cfg history_drifting _ eq_refl eq_refl eq_refl eq_refl)).
Defined.

(** No medium seen: the ticks sent nothing, and the next one does nothing. *)
Lemma no_medium_no_dispatch :
  let r := run vehicle_id flat_toWGS84 flat_distance history_no_medium
             (fst (startup default_cfg)) in
  call task (fst r) = (fst r, []) /\ (readiness_incomplete (fst r) -> snd r = []).
Proof.
  apply (task_waits_for_readiness vehicle_id flat_toWGS84 flat_distance
           history_no_medium (fst (startup default_cfg))).
  - apply surjective_pairing.
  - left. right. left. reflexivity.
Defined.

(** A fix away from the reference point clears [m_is_near] although no
    safety location was ever configured. *)
Lemma fix_away_clears_near :
  m_is_near
    (fst (call (consume_EstimatedState flat_toWGS84 flat_distance fix_away)
            (new_Task default_cfg)))
  = false.
Proof.
  apply (consume_EstimatedState_far_clears_near flat_toWGS84 flat_distance).
  reflexivity.
Defined.

(** After the safety request, ticking on does not repeat it. *)
Lemma ticking_in_safety_mode :
  let r := run vehicle_id flat_toWGS84 flat_distance history_ticking
             (fst (call task drifting)) in
  isSafe (fst (call task drifting)) = true /\
  m_safety (fst r) = true /\ existsb is_safety_zone (snd r) = false.
Proof.
  apply (no_second_safety_zone vehicle_id flat_toWGS84 flat_distance
           history_ticking (fst (call task drifting))).
  - reflexivity.
  - reflexivity.
  - apply surjective_pairing.
Defined.

(** Underwater after a failure with ascend disabled: the fail timer is reset
    and nothing is sent. *)
Lemma failed_underwater_resets_timer :
  call task failed_underwater =
    (with_plan_id "safety_" (upd_fail_timer Counter.reset failed_underwater),
     []).
Proof.
  apply failed_retry_resets_timer_only; try reflexivity.
  left. repeat split.
Defined.

(** Ten minutes after start-up, with no heartbeat ever received, a medium
    update reporting underwater resets the lost-comms timer. *)
Lemma underwater_resets_without_heartbeat :
  let s := elapse 700 (fst (startup default_cfg)) in
  Counter.overflow (m_lost_coms_timer s) = true /\
  m_lost_coms_timer
    (fst (call (consume vehicle_id flat_toWGS84 flat_distance
                  (MsgVehicleMedium MediumHandler.VM_UNDERWATER)) s))
  = Counter.mk 600 0.
Proof.
  split; [reflexivity |].
  exact (lost_coms_reset_iff vehicle_id flat_toWGS84 flat_distance
           (MsgVehicleMedium MediumHandler.VM_UNDERWATER)
           (elapse 700 (fst (startup default_cfg)))).
Defined.

(** *** Scenarios *)

(** Readiness incomplete: no dispatch. *)
Example scenario_no_medium :
  snd (run vehicle_id flat_toWGS84 flat_distance history_no_medium
         (fst (startup default_cfg))) = [].
Proof. reflexivity. Qed.

(** Away from the reference point, consoles silent, in service and idle. *)
Example scenario_safety_zone :
  snd (call task drifting) = [Dispatch safety_request].
Proof. reflexivity. Qed.

(** The same near the reference point: keep station. *)
Example scenario_keep_station :
  map is_safety_zone (snd (call task idle_at_surface)) = [false; false] /\
  plan_id (m_pg (fst (call task idle_at_surface))) = "sk".
Proof. split; reflexivity. Qed.

(** The same underwater: surface. *)
Example scenario_surface :
  plan_id
    (m_pg (fst (call task
                  (upd_medium (fun _ => MediumHandler.VM_UNDERWATER)
                     idle_at_surface)))) = "surface".
Proof. reflexivity. Qed.

(** After a failure: nothing until the fail timer overflows, then the
    [safety_] plans. *)
Example scenario_retry :
  let failed := set_pcs (mkPCS PCS_READY LPO_FAILURE) idle_at_surface in
  snd (call task failed) = [] /\
  plan_id (m_pg (fst (call task (elapse 60 failed)))) = "safety_sk" /\
  plan_id
    (m_pg (fst (call task
                  (upd_medium (fun _ => MediumHandler.VM_UNDERWATER)
                     (elapse 60 failed))))) = "safety_surface".
Proof. repeat split; reflexivity. Qed.

(** ** Histories of the task *)

Section Histories.

Variable system_id : Z.
Variable toWGS84 : EstimatedState -> spec_float * spec_float.
Variable WGS84_distance :
  spec_float -> spec_float -> spec_float ->
  spec_float -> spec_float -> spec_float -> spec_float.

Local Abbreviation deliver := (consume system_id toWGS84 WGS84_distance).
Local Abbreviation step1 := (step system_id toWGS84 WGS84_distance).
Local Abbreviation exec := (run system_id toWGS84 WGS84_distance).

Local Abbreviation fix_is_near := (distance_check toWGS84 WGS84_distance).

(** *** Readiness *)

Lemma step_m_dr_exact (e : Event) (s : Task) :
  m_dr (fst (step1 e s)) =
    Z.lor (m_dr s)
      ((if sets_vstate e then GOT_VSTATE else 0)
       + (if sets_medium e then GOT_MEDIUM else 0)
       + (if sets_pcs e then GOT_PCS else 0)).
Proof.
  destruct e as [msg | | dt]; cbn [step sets_vstate sets_medium sets_pcs].
  - destruct msg as [m | src | src | m | m | m]; cbn [consume].
    + rewrite call_consume_EstimatedState. cbn. now rewrite Z.lor_0_r.
    + rewrite call_consume_Heartbeat.
      destruct (negb (src =? system_id) && negb (Z.land src 0x4000 =? 0));
        cbn; now rewrite Z.lor_0_r.
    + rewrite call_consume_PlanControl.
      destruct (src =? system_id); cbn; now rewrite Z.lor_0_r.
    + now rewrite call_consume_PlanControlState.
    + rewrite call_consume_VehicleState.
      destruct (VS_OpMode_eqb m VS_BOOT); cbn; [now rewrite Z.lor_0_r |].
      reflexivity.
    + rewrite call_consume_VehicleMedium.
      now destruct (MediumHandler.isUnderwater m).
  - destruct (task_frame s) as (-> & _). cbn. now rewrite Z.lor_0_r.
  - cbn. now rewrite Z.lor_0_r.
Qed.

Lemma step_got_bits (e : Event) (s : Task) :
  got_vstate (fst (step1 e s)) = got_vstate s || sets_vstate e /\
  got_medium (fst (step1 e s)) = got_medium s || sets_medium e /\
  got_pcs (fst (step1 e s)) = got_pcs s || sets_pcs e.
Proof.
  unfold got_vstate, got_medium, got_pcs.
  rewrite step_m_dr_exact, !Z.lor_spec.
  now destruct (sets_vstate e), (sets_medium e), (sets_pcs e).
Qed.

Lemma run_got_bits (es : list Event) (s : Task) :
  got_vstate (fst (exec es s)) = got_vstate s || existsb sets_vstate es /\
  got_medium (fst (exec es s)) = got_medium s || existsb sets_medium es /\
  got_pcs (fst (exec es s)) = got_pcs s || existsb sets_pcs es.
Proof.
  revert s. induction es as [| e es IH]; intros s.
  - cbn. now rewrite !orb_false_r.
  - rewrite run_cons. cbn [fst existsb].
    destruct (IH (fst (step1 e s))) as (-> & -> & ->).
    destruct (step_got_bits e s) as (-> & -> & ->).
    now rewrite !orb_assoc.
Qed.

(** X1. After any history, from any task object, a readiness bit is set
    exactly if it was set before or a message that sets it was delivered:
    a vehicle state other than boot for [GOT_VSTATE], a vehicle medium for
    [GOT_MEDIUM], a plan control state for [GOT_PCS].  Ticks, waits and the
    other messages neither set nor clear a bit. *)
Theorem readiness_bits_exact (es : list Event) (s : Task) :
  got_vstate (fst (exec es s)) = got_vstate s || existsb sets_vstate es /\
  got_medium (fst (exec es s)) = got_medium s || existsb sets_medium es /\
  got_pcs (fst (exec es s)) = got_pcs s || existsb sets_pcs es.
Proof. apply run_got_bits. Qed.

(** The readiness mask stays within the three bits. *)
Lemma m_dr_bits (d : Z) :
  0 <= d <= 7 ->
  (d =? GOT_ALL) = Z.testbit d 0 && Z.testbit d 1 && Z.testbit d 2.
Proof.
  intros H.
  assert (E : d = 0 \/ d = 1 \/ d = 2 \/ d = 3 \/ d = 4 \/ d = 5 \/ d = 6
              \/ d = 7) by lia.
  repeat (destruct E as [-> | E]; [reflexivity |]). now subst.
Qed.

Lemma lor_three_bits (d c : Z) :
  0 <= d <= 7 -> 0 <= c <= 7 -> 0 <= Z.lor d c <= 7.
Proof.
  intros Hd Hc.
  assert (Ed : d = 0 \/ d = 1 \/ d = 2 \/ d = 3 \/ d = 4 \/ d = 5 \/ d = 6
               \/ d = 7) by lia.
  assert (Ec : c = 0 \/ c = 1 \/ c = 2 \/ c = 3 \/ c = 4 \/ c = 5 \/ c = 6
               \/ c = 7) by lia.
  clear Hd Hc.
  repeat (destruct Ed as [-> | Ed]);
    repeat (destruct Ec as [-> | Ec]); subst; cbn; lia.
Qed.

Lemma step_m_dr_range (e : Event) (s : Task) :
  0 <= m_dr s <= 7 -> 0 <= m_dr (fst (step1 e s)) <= 7.
Proof.
  intros H. rewrite step_m_dr_exact. apply lor_three_bits; [exact H |].
  unfold GOT_VSTATE, GOT_MEDIUM, GOT_PCS.
  destruct (sets_vstate e), (sets_medium e), (sets_pcs e); lia.
Qed.

Lemma run_m_dr_range (es : list Event) (s : Task) :
  0 <= m_dr s <= 7 -> 0 <= m_dr (fst (exec es s)) <= 7.
Proof.
  revert s. induction es as [| e es IH]; intros s H; [exact H |].
  rewrite run_cons. cbn [fst]. now apply IH, step_m_dr_range.
Qed.

Lemma startup_m_dr_range (cfg : Arguments) :
  0 <= m_dr (fst (startup cfg)) <= 7.
Proof. change (m_dr (fst (startup cfg))) with 0. lia. Qed.

Lemma run_ready (cfg : Arguments) (es : list Event) :
  (m_dr (fst (exec es (fst (startup cfg)))) =? GOT_ALL) =
    existsb sets_vstate es && existsb sets_medium es && existsb sets_pcs es.
Proof.
  rewrite m_dr_bits by apply run_m_dr_range, startup_m_dr_range.
  destruct (run_got_bits es (fst (startup cfg))) as (H1 & H2 & H3).
  unfold got_vstate, got_medium, got_pcs in H1, H2, H3.
  now rewrite H1, H2, H3.
Qed.

(** X2. After any history from start-up, the guard of [task] passes its
    first test ([m_dr == GOT_ALL]) exactly if the history delivered a vehicle
    state other than boot, a vehicle medium and a plan control state; the
    mask never leaves the range of the three bits. *)
Theorem ready_iff_all_seen (cfg : Arguments) (es : list Event) :
  let s := fst (exec es (fst (startup cfg))) in
  0 <= m_dr s <= GOT_ALL /\
  (m_dr s =? GOT_ALL) =
    existsb sets_vstate es && existsb sets_medium es && existsb sets_pcs es.
Proof.
  split; [apply run_m_dr_range, startup_m_dr_range | apply run_ready].
Qed.

(** X3. From start-up, as long as one of the three kinds of data is missing
    -- vehicle states in boot mode do not count -- no tick sends anything:
    the whole history is silent. *)
Theorem silent_until_all_seen (cfg : Arguments) (es : list Event) :
  existsb sets_vstate es && existsb sets_medium es && existsb sets_pcs es
  = false ->
  snd (exec es (fst (startup cfg))) = [].
Proof.
  intros H. apply run_silent_until_ready.
  destruct (run_got_bits es (fst (startup cfg))) as (H1 & H2 & H3).
  unfold readiness_incomplete. rewrite H1, H2, H3. cbn.
  destruct (existsb sets_vstate es); [| now left].
  destruct (existsb sets_medium es); [| now right; left].
  right; right. exact H.
Qed.

(** *** Latest value wins *)

Lemma run_latest {A : Type} (f : Task -> A) (pick : Event -> option A) :
  (forall e s,
     f (fst (step1 e s)) = match pick e with Some a => a | None => f s end) ->
  forall es s, f (fst (exec es s)) = latest pick es (f s).
Proof.
  intros Hstep es. induction es as [| e es IH]; intros s; [reflexivity |].
  rewrite run_cons. cbn [fst]. rewrite IH, Hstep. reflexivity.
Qed.

Lemma step_inputs (e : Event) (s : Task) :
  let s' := fst (step1 e s) in
  m_pcs s' = match pick_pcs e with Some a => a | None => m_pcs s end /\
  m_medium s' = match pick_medium e with Some a => a | None => m_medium s end /\
  m_serv_err s' =
    match pick_op_mode e with
    | Some m => VS_OpMode_eqb m VS_SERVICE || VS_OpMode_eqb m VS_ERROR
    | None => m_serv_err s
    end /\
  m_is_near s' =
    match pick_fix e with Some m => fix_is_near m | None => m_is_near s end.
Proof.
  destruct e as [msg | | dt];
    cbn [step pick_pcs pick_medium pick_op_mode pick_fix].
  - destruct msg as [m | src | src | m | m | m]; cbn [consume].
    + rewrite call_consume_EstimatedState. now cbn.
    + rewrite call_consume_Heartbeat.
      now destruct (negb (src =? system_id) && negb (Z.land src 0x4000 =? 0)).
    + rewrite call_consume_PlanControl. now destruct (src =? system_id).
    + now rewrite call_consume_PlanControlState.
    + rewrite call_consume_VehicleState.
      now destruct (VS_OpMode_eqb m VS_BOOT).
    + rewrite call_consume_VehicleMedium.
      now destruct (MediumHandler.isUnderwater m).
  - destruct (task_frame s) as (_ & -> & -> & -> & -> & _). now cbn.
  - now cbn.
Qed.

(** X4. Latest value wins: after any history the task holds the plan
    control state and the medium of the last such message delivered, the
    service-or-error flag computed from the last vehicle state, and the
    nearness computed from the last position fix -- or what it held before,
    where no such message was delivered.  Ticks, waits and messages of other
    kinds do not disturb them. *)
Theorem latest_value_wins (es : list Event) (s : Task) :
  let s' := fst (exec es s) in
  m_pcs s' = latest pick_pcs es (m_pcs s) /\
  m_medium s' = latest pick_medium es (m_medium s) /\
  m_serv_err s' =
    latest (fun e => option_map
                       (fun m => VS_OpMode_eqb m VS_SERVICE
                                 || VS_OpMode_eqb m VS_ERROR)
                       (pick_op_mode e)) es (m_serv_err s) /\
  m_is_near s' =
    latest (fun e => option_map fix_is_near (pick_fix e)) es (m_is_near s).
Proof.
  cbv zeta. repeat split.
  - apply (run_latest m_pcs). intros e t. apply step_inputs.
  - apply (run_latest m_medium). intros e t. apply step_inputs.
  - apply (run_latest m_serv_err). intros e t.
    destruct (step_inputs e t) as (_ & _ & -> & _).
    now destruct (pick_op_mode e).
  - apply (run_latest m_is_near). intros e t.
    destruct (step_inputs e t) as (_ & _ & _ & ->).
    now destruct (pick_fix e).
Qed.

(** *** Who writes what *)

(** X5. No message handler sends anything; none writes the request buffer,
    the configuration or the fail timer, and none changes a threshold: only
    the periodic [task] speaks on the bus. *)
Theorem handlers_are_silent (msg : Message) (s : Task) :
  let s' := fst (call (deliver msg) s) in
  snd (call (deliver msg) s) = [] /\
  m_pg s' = m_pg s /\ m_args s' = m_args s /\
  m_fail_timer s' = m_fail_timer s /\
  Counter.top (m_lost_coms_timer s') = Counter.top (m_lost_coms_timer s).
Proof.
  destruct msg as [m | src | src | m | m | m]; cbn [consume].
  - rewrite call_consume_EstimatedState. now cbn.
  - rewrite call_consume_Heartbeat.
    now destruct (negb (src =? system_id) && negb (Z.land src 0x4000 =? 0)).
  - rewrite call_consume_PlanControl. now destruct (src =? system_id).
  - now rewrite call_consume_PlanControlState.
  - rewrite call_consume_VehicleState. now destruct (VS_OpMode_eqb m VS_BOOT).
  - rewrite call_consume_VehicleMedium.
    now destruct (MediumHandler.isUnderwater m).
Qed.

(** X6. A tick never writes the readiness mask, the medium, the
    service-or-error flag, the plan control state, the nearness flag or the
    configuration; in the request buffer it writes the plan identifier only;
    it changes no threshold; and it never clears [m_issued] or [m_safety]. *)
Theorem task_writes_only (s : Task) :
  let s' := fst (call task s) in
  (m_dr s' = m_dr s /\ m_medium s' = m_medium s /\
   m_serv_err s' = m_serv_err s /\ m_pcs s' = m_pcs s /\
   m_is_near s' = m_is_near s /\ m_args s' = m_args s) /\
  (op (m_pg s') = op (m_pg s) /\ cmd (m_pg s') = cmd (m_pg s) /\
   params (m_pg s') = params (m_pg s)) /\
  (Counter.top (m_lost_coms_timer s') = Counter.top (m_lost_coms_timer s) /\
   Counter.top (m_fail_timer s') = Counter.top (m_fail_timer s)) /\
  (m_issued s = true -> m_issued s' = true) /\
  (m_safety s = true -> m_safety s' = true).
Proof.
  cbv zeta. split; [| split]; [pose proof (task_frame s); cbv zeta in *; tauto ..
                              |].
  rewrite call_task.
  repeat match goal with
         | |- context [if ?b then _ else _] => destruct b
         end;
    try (cbn; tauto);
    match goal with
    | |- context [hold_station ?pre ?t] =>
        destruct (hold_station_cases pre t) as [-> | [(_ & _ & ->) | (_ & _ & ->)]]
    end; cbn; tauto.
Qed.

(** *** What is sent *)

Lemma task_known_outputs (s : Task) :
  pg_configured s -> Forall known_output (snd (call task s)).
Proof.
  intros (Hop & Hcmd & Hpar). rewrite call_task.
  repeat match goal with
         | |- context [if ?b then _ else _] => destruct b
         end;
    try (cbn; now constructor);
    try match goal with
    | |- context [hold_station ?pre ?t] =>
        destruct (hold_station_cases pre t) as [-> | [(_ & _ & ->) | (_ & _ & ->)]]
    end;
    cbn; repeat (apply Forall_cons || apply Forall_nil);
    cbn; repeat split; auto 10.
Qed.

Lemma run_known_outputs (es : list Event) (s : Task) :
  pg_configured s -> Forall known_output (snd (exec es s)).
Proof.
  revert s. induction es as [| e es IH]; intros s H; [constructor |].
  rewrite run_cons. cbn [snd]. apply Forall_app. split.
  - destruct e as [msg | | dt]; cbn [step].
    + destruct (consume_frame system_id toWGS84 WGS84_distance msg s)
        as (-> & _). constructor.
    + now apply task_known_outputs.
    + constructor.
  - apply IH. now apply step_pg_configured.
Qed.

(** X7. Whatever the history after start-up, everything the task sends is
    either the report of active status or a request to execute one of the
    five plans [safety_zone], [surface], [sk], [safety_surface], [safety_sk]
    with the parameters [calibrate=false;ignore_errors=true]. *)
Theorem only_known_plans (cfg : Arguments) (es : list Event) :
  Forall known_output (snd (exec es (fst (startup cfg)))).
Proof. apply run_known_outputs, startup_pg_configured. Qed.

(** *** The configuration *)

Lemma step_configured (cfg : Arguments) (e : Event) (s : Task) :
  configured cfg s -> configured cfg (fst (step1 e s)).
Proof.
  unfold configured. intros (H1 & H2 & H3).
  destruct e as [msg | | dt]; cbn [step].
  - destruct msg as [m | src | src | m | m | m]; cbn [consume].
    + rewrite call_consume_EstimatedState. now cbn.
    + rewrite call_consume_Heartbeat.
      now destruct (negb (src =? system_id) && negb (Z.land src 0x4000 =? 0)).
    + rewrite call_consume_PlanControl. now destruct (src =? system_id).
    + now rewrite call_consume_PlanControlState.
    + rewrite call_consume_VehicleState.
      now destruct (VS_OpMode_eqb m VS_BOOT).
    + rewrite call_consume_VehicleMedium.
      now destruct (MediumHandler.isUnderwater m).
  - rewrite call_task.
    repeat match goal with
           | |- context [if ?b then _ else _] => destruct b
           end;
      try (cbn; tauto);
      match goal with
      | |- context [hold_station ?pre ?t] =>
          destruct (hold_station_cases pre t) as [-> | [(_ & _ & ->) | (_ & _ & ->)]]
      end; cbn; tauto.
  - now cbn.
Qed.

Lemma run_configured (cfg : Arguments) (es : list Event) (s : Task) :
  configured cfg s -> configured cfg (fst (exec es s)).
Proof.
  revert s. induction es as [| e es IH]; intros s H; [exact H |].
  rewrite run_cons. cbn [fst]. now apply IH, step_configured.
Qed.

(** X8. Start-up sets the threshold of the fail timer to [c_fail_timeout]
    (60 s) and that of the lost-comms timer to the configured time-out, and
    no delivery, tick or wait ever changes either threshold or the
    configuration. *)
Theorem thresholds_are_constant (cfg : Arguments) (es : list Event) :
  let s := fst (exec es (fst (startup cfg))) in
  Counter.top (m_fail_timer s) = c_fail_timeout /\
  Counter.top (m_lost_coms_timer s) = timeout cfg /\
  m_args s = cfg.
Proof. apply run_configured. now repeat split. Qed.

(** *** The lost-comms time-out *)

Lemma isSafe_before_timeout (s : Task) :
  Counter.overflow (m_lost_coms_timer s) = false -> isSafe s = true.
Proof.
  intros H. unfold isSafe. rewrite H.
  now destruct (isNear s), (m_safety s).
Qed.

Lemma safe_tick_keeps_lost_timer (s : Task) :
  isSafe s = true ->
  m_lost_coms_timer (fst (call task s)) = m_lost_coms_timer s /\
  existsb is_safety_zone (snd (call task s)) = false.
Proof.
  intros H. rewrite call_task, H. cbn [negb].
  repeat match goal with
         | |- context [if ?b then _ else _] => destruct b
         end;
    try (cbn; now split);
    match goal with
    | |- context [hold_station ?pre ?t] =>
        destruct (hold_station_cases pre t) as [-> | [(_ & _ & ->) | (_ & _ & ->)]]
    end; cbn; now split.
Qed.

Lemma deliver_lost_timer (msg : Message) (s : Task) :
  m_lost_coms_timer (fst (call (deliver msg) s)) = m_lost_coms_timer s \/
  m_lost_coms_timer (fst (call (deliver msg) s))
  = Counter.reset (m_lost_coms_timer s).
Proof.
  destruct msg as [m | src | src | m | m | m]; cbn [consume].
  - rewrite call_consume_EstimatedState. now left.
  - rewrite call_consume_Heartbeat.
    destruct (negb (src =? system_id) && negb (Z.land src 0x4000 =? 0));
      [now right | now left].
  - rewrite call_consume_PlanControl. destruct (src =? system_id); now left.
  - rewrite call_consume_PlanControlState. now left.
  - rewrite call_consume_VehicleState.
    destruct (VS_OpMode_eqb m VS_BOOT); now left.
  - rewrite call_consume_VehicleMedium.
    destruct (MediumHandler.isUnderwater m); [now right | now left].
Qed.

Lemma total_wait_nonneg (es : list Event) :
  waits_forward es -> (0 <= total_wait es)%Q.
Proof.
  induction es as [| [msg | | dt] es IH]; cbn; intros H;
    [lra | auto | auto |].
  destruct H as [H1 H2]. specialize (IH H2). lra.
Qed.

Lemma not_overflowed (c : Counter.t) :
  (Counter.elapsed c < Counter.top c)%Q -> Counter.overflow c = false.
Proof.
  intros H. unfold Counter.overflow.
  destruct (Qle_bool _ _) eqn:E; [| reflexivity].
  apply Qle_bool_iff in E. lra.
Qed.

(** X12. The safety request is never sent before the lost-comms time-out
    has run out: from a task object whose lost-comms timer stands at [e]
    seconds, a history whose waits add up to less than the threshold minus
    [e] sends no [safety_zone] request, whatever messages and ticks it
    contains.  In particular none is sent within the time-out of a console
    heartbeat or an underwater report, which zero the timer. *)
Theorem no_safety_zone_within_timeout (es : list Event) (s : Task) :
  (0 <= Counter.elapsed (m_lost_coms_timer s))%Q ->
  waits_forward es ->
  (Counter.elapsed (m_lost_coms_timer s) + total_wait es
   < Counter.top (m_lost_coms_timer s))%Q ->
  existsb is_safety_zone (snd (exec es s)) = false.
Proof.
  revert s. induction es as [| e es IH]; intros s H0 Hw Hlt; [reflexivity |].
  rewrite run_cons. cbn [snd]. rewrite existsb_app.
  destruct e as [msg | | dt]; cbn [step total_wait waits_forward] in *.
  - destruct (consume_frame system_id toWGS84 WGS84_distance msg s)
      as (-> & _). cbn [existsb orb].
    pose proof (total_wait_nonneg es Hw) as Hn.
    apply IH; [| exact Hw |];
      destruct (deliver_lost_timer msg s) as [-> | ->]; cbn; lra.
  - pose proof (total_wait_nonneg es Hw) as Hn.
    assert (Hs : isSafe s = true)
      by (apply isSafe_before_timeout, not_overflowed; lra).
    destruct (safe_tick_keeps_lost_timer s Hs) as [Ht ->]. cbn [orb].
    apply IH; [| exact Hw |]; rewrite Ht; assumption.
  - destruct Hw as [Hdt Hw]. cbn [existsb orb fst].
    apply IH; [| exact Hw |]; cbn; lra.
Qed.


(** *** Near the reference point *)

Lemma run_while_near (es : list Event) (s : Task) :
  m_is_near s = true ->
  forallb (fun e => match pick_fix e with
                    | Some m => fix_is_near m
                    | None => true
                    end) es = true ->
  existsb is_safety_zone (snd (exec es s)) = false /\
  m_is_near (fst (exec es s)) = true.
Proof.
  revert s. induction es as [| e es IH]; intros s Hn Hfix; [now split |].
  cbn [forallb] in Hfix. apply andb_prop in Hfix. destruct Hfix as [He Hes].
  rewrite run_cons. cbn [fst snd]. rewrite existsb_app.
  assert (Hn1 : m_is_near (fst (step1 e s)) = true).
  { destruct (step_inputs e s) as (_ & _ & _ & ->).
    now destruct (pick_fix e). }
  destruct (IH _ Hn1 Hes) as [-> ->]. split; [| reflexivity].
  rewrite orb_false_r. destruct e as [msg | | dt]; cbn [step].
  - now destruct (consume_frame system_id toWGS84 WGS84_distance msg s)
      as (-> & _).
  - apply safe_tick_keeps_lost_timer.
    unfold isSafe, isNear. now rewrite Hn.
  - reflexivity.
Qed.

(** X20. A vehicle that counts as near the reference point is never sent to
    the safety zone: from a task object with [m_is_near] set -- as it is
    from start-up on, before any position fix -- a history in which every
    delivered fix passes the distance check sends no [safety_zone] request,
    however long the consoles stay silent. *)
Theorem no_safety_zone_while_near (es : list Event) (s : Task) :
  m_is_near s = true ->
  forallb (fun e => match pick_fix e with
                    | Some m => fix_is_near m
                    | None => true
                    end) es = true ->
  existsb is_safety_zone (snd (exec es s)) = false.
Proof. intros Hn Hfix. now apply run_while_near. Qed.

End Histories.

(** ** Consecutive ticks *)

(** The verdict reads five fields, and [m_issued] only when the vehicle is
    not idle in service or error. *)
Lemma isSafe_ext (s t : Task) :
  m_is_near t = m_is_near s ->
  m_safety t = m_safety s ->
  m_lost_coms_timer t = m_lost_coms_timer s ->
  m_serv_err t = m_serv_err s ->
  m_pcs t = m_pcs s ->
  m_issued t = m_issued s \/ (m_serv_err s = true /\ isIdle s = true) ->
  isSafe t = isSafe s.
Proof.
  unfold isSafe, isNear, isIdle. intros -> -> -> -> -> [-> | [H1 H2]].
  - reflexivity.
  - now rewrite H1, H2.
Qed.

(** X9. With a safe verdict and a last outcome other than failure, a second
    tick right after the first leaves the task object as the first left it
    and sends again what the first sent: the request to hold station is
    repeated on every tick, not sent once. *)
Theorem safe_tick_repeats (s : Task) :
  isSafe s = true ->
  hasFailed s = false ->
  call task (fst (call task s)) = call task s.
Proof.
  intros Hsafe Hf.
  destruct (call task s) as [s1 o1] eqn:E. cbn [fst].
  rewrite call_task, Hsafe, Hf in E. cbn [negb] in E.
  destruct (m_dr s =? GOT_ALL) eqn:Hdr; cbn [negb] in E;
    [| injection E as <- <-; rewrite call_task, Hdr; reflexivity].
  destruct (MediumHandler.inWater (m_medium s)) eqn:Hw; cbn [negb] in E;
    [| injection E as <- <-; rewrite call_task, Hdr, Hw; reflexivity].
  destruct (negb (sk (m_args s)) && negb (asc (m_args s))) eqn:Hgate;
    [injection E as <- <-;
     rewrite call_task, Hdr, Hw, Hsafe, Hgate; reflexivity |].
  destruct (m_serv_err s) eqn:Hse; cbn [negb] in E;
    [| injection E as <- <-;
       rewrite call_task, Hdr, Hw, Hsafe, Hgate, Hse; reflexivity].
  destruct (isIdle s) eqn:Hidle; cbn [negb] in E;
    [| injection E as <- <-;
       rewrite call_task, Hdr, Hw, Hsafe, Hgate, Hse, Hidle; reflexivity].
  assert (Hsafe1 : isSafe s1 = true).
  { rewrite <- Hsafe.
    destruct (hold_station_cases EmptyString (with_plan_id EmptyString s))
      as [H | [(_ & _ & H) | (_ & _ & H)]];
      rewrite H in E; injection E as <- <-;
      apply isSafe_ext; cbn; auto. }
  rewrite call_task.
  destruct (hold_station_cases EmptyString (with_plan_id EmptyString s))
    as [H | [(Huw & Hflag & H) | (Huw & Hflag & H)]];
    rewrite H in E; rewrite <- Hsafe1; injection E as <- <-;
    rewrite Hsafe1;
    unfold isIdle, hasFailed, hold_station, issue in *;
    cbn [m_dr m_medium m_args m_serv_err m_pcs m_fail_timer m_pg m_issued
         set_issued with_plan_id upd_pg upd_plan_id plan_id op cmd params
         negb] in *;
    rewrite Hdr, Hw, Hgate, Hse, Hidle, Hf; cbn [negb].
  - destruct (MediumHandler.isUnderwater (m_medium s)).
    + destruct (asc (m_args s)); [discriminate H | reflexivity].
    + destruct (sk (m_args s)); [discriminate H | reflexivity].
  - now rewrite Huw, Hflag.
  - now rewrite Huw, Hflag.
Qed.

Lemma task_after_unsafe (s : Task) (dt : Q) :
  m_dr s = GOT_ALL ->
  MediumHandler.inWater (m_medium s) = true ->
  isSafe s = false ->
  let t := elapse dt (fst (call task s)) in
  m_dr t = m_dr s /\ m_medium t = m_medium s /\ m_args t = m_args s /\
  m_serv_err t = m_serv_err s /\ m_pcs t = m_pcs s /\
  m_safety t = true /\
  op (m_pg t) = op (m_pg s) /\ cmd (m_pg t) = cmd (m_pg s) /\
  params (m_pg t) = params (m_pg s).
Proof.
  intros Hdr Hw Hsafe. rewrite call_task, Hdr, Hw, Hsafe. cbn.
  now repeat split.
Qed.

(** X10. The safety request does not stand alone.  When a tick found the
    vehicle unsafe while idle in service or error, and the last outcome is
    not a failure, the very next tick -- however much later, if no message
    arrived in between -- finds the verdict safe (safety mode is on) and
    asks for [surface] (underwater, ascend enabled) or [sk] (at the surface,
    keep-station enabled) on top of the [safety_zone] request. *)
Theorem hold_follows_safety (s : Task) (dt : Q) :
  m_dr s = GOT_ALL ->
  MediumHandler.inWater (m_medium s) = true ->
  isSafe s = false ->
  m_serv_err s = true ->
  isIdle s = true ->
  hasFailed s = false ->
  (if MediumHandler.isUnderwater (m_medium s)
   then asc (m_args s) else sk (m_args s)) = true ->
  snd (call task s) =
    [Dispatch (mkPG (op (m_pg s)) (cmd (m_pg s)) "safety_zone"
                 (params (m_pg s)))] /\
  snd (call task (elapse dt (fst (call task s)))) =
    [Dispatch (mkPG (op (m_pg s)) (cmd (m_pg s))
                 (if MediumHandler.isUnderwater (m_medium s)
                  then "surface" else "sk")
                 (params (m_pg s)));
     EntityState ESTA_NORMAL CODE_ACTIVE].
Proof.
  intros Hdr Hw Hsafe Hse Hidle Hf Hflag. split.
  - now rewrite call_task, Hdr, Hw, Hsafe.
  - destruct (task_after_unsafe s dt Hdr Hw Hsafe)
      as (E1 & E2 & E3 & E4 & E5 & E6 & E7 & E8 & E9).
    set (t := elapse dt (fst (call task s))) in *.
    rewrite call_task, (isSafe_in_safety_mode t E6).
    unfold isIdle, hasFailed, hold_station, issue in *.
    cbn [m_dr m_medium m_args m_serv_err m_pcs m_fail_timer m_pg m_issued
         set_issued with_plan_id upd_pg upd_plan_id plan_id op cmd params
         negb snd].
    rewrite E1, E2, E3, E4, E5, Hdr, Hw, Hse, Hidle, Hf.
    cbn [negb Z.eqb GOT_ALL Pos.eqb].
    destruct (MediumHandler.isUnderwater (m_medium s)); rewrite Hflag;
      rewrite ?andb_false_r; cbn; unfold upd_plan_id;
      change (m_pg (fst (call task s))) with (m_pg t);
      cbn [op cmd params plan_id]; now rewrite E7, E8, E9.
Qed.

Lemma backoff_tick (t : Task) :
  hasFailed t = true ->
  Counter.overflow (m_fail_timer t) = false ->
  existsb is_hold_request (snd (call task t)) = false.
Proof.
  intros Hf Hov. rewrite call_task, Hf, Hov.
  repeat match goal with
         | |- context [if ?b then _ else _] => destruct b
         end; reflexivity.
Qed.

(** X11. Back-off after a failure.  When a tick with a failed last outcome
    reaches the failure check with the fail timer overflowed, it resets the
    timer; a tick that follows less than the timer's threshold later -- the
    last outcome still being failure -- asks for no plan to hold station
    and reports no activity (at most it sends the safety request). *)
Theorem retry_backoff (s : Task) (dt : Q) :
  m_dr s = GOT_ALL ->
  MediumHandler.inWater (m_medium s) = true ->
  isSafe s = true ->
  sk (m_args s) || asc (m_args s) = true ->
  m_serv_err s = true ->
  isIdle s = true ->
  hasFailed s = true ->
  Counter.overflow (m_fail_timer s) = true ->
  (0 <= dt < Counter.top (m_fail_timer s))%Q ->
  m_fail_timer (fst (call task s)) = Counter.reset (m_fail_timer s) /\
  existsb is_hold_request
    (snd (call task (elapse dt (fst (call task s))))) = false.
Proof.
  intros Hdr Hw Hsafe Hgate Hse Hidle Hf Hov Hdt.
  assert (Hgate' : negb (sk (m_args s)) && negb (asc (m_args s)) = false)
    by (now destruct (sk (m_args s)), (asc (m_args s))).
  assert (Ht : m_fail_timer (fst (call task s)) = Counter.reset (m_fail_timer s)).
  { rewrite call_task, Hdr, Hw, Hsafe, Hgate', Hse, Hidle, Hf, Hov.
    cbn [negb Z.eqb GOT_ALL Pos.eqb].
    match goal with
    | |- context [hold_station ?pre ?t] =>
        destruct (hold_station_cases pre t) as [-> | [(_ & _ & ->) | (_ & _ & ->)]]
    end; reflexivity. }
  split; [exact Ht |].
  apply backoff_tick.
  - unfold hasFailed in *. cbn [elapse upd_fail_timer upd_lost_coms_timer m_pcs].
    destruct (task_frame s) as (_ & _ & _ & -> & _). exact Hf.
  - cbn [elapse upd_fail_timer upd_lost_coms_timer m_fail_timer].
    rewrite Ht. unfold Counter.overflow. cbn.
    destruct (Qle_bool _ _) eqn:E; [| reflexivity].
    apply Qle_bool_iff in E. lra.
Qed.

(** ** The servo sweep test *)

Section ServoTestFacts.

Variable half_pi : spec_float.
Variable atoi : string -> Z.

Local Abbreviation fins_ok := (ServoTest.fins_ok half_pi).
Local Abbreviation command_ok := (ServoTest.command_ok half_pi).
Local Abbreviation dispatchFins := (ServoTest.dispatchFins atoi).
Local Abbreviation servo_step := (ServoTest.step atoi).
Local Abbreviation servo_run := (ServoTest.run atoi).

Lemma SFopp_involutive (v : spec_float) : SFopp (SFopp v) = v.
Proof. destruct v; cbn; now rewrite ?negb_involutive. Qed.

Lemma four_fins (fins : list ServoTest.SetServoPosition) :
  List.length fins = ServoTest.c_fins ->
  exists f0 f1 f2 f3, fins = [f0; f1; f2; f3].
Proof.
  destruct fins as [| f0 [| f1 [| f2 [| f3 [| f4 fins]]]]];
    try discriminate. intros _. now exists f0, f1, f2, f3.
Qed.

Lemma small_index (i : Z) :
  (0 <=? i) && (i <? 4) = true -> i = 0 \/ i = 1 \/ i = 2 \/ i = 3.
Proof.
  intros H. apply andb_prop in H. destruct H as [H1 H2].
  apply Z.leb_le in H1. apply Z.ltb_lt in H2. lia.
Qed.

Lemma flipped_twice (f : ServoTest.SetServoPosition) :
  ServoTest.flipped (ServoTest.flipped f) = f.
Proof.
  destruct f as [i v]. unfold ServoTest.flipped. cbn.
  now rewrite SFopp_involutive.
Qed.

(** [dispatchFins] on a task with its four fins. *)
Lemma dispatchFins_four
    (args : ServoTest.Arguments) (f0 f1 f2 f3 : ServoTest.SetServoPosition)
    (tm cy : Counter.t) (pos : list spec_float) (sm : bool) :
  let mk fins := ServoTest.mkTask args fins tm cy pos sm in
  let g := ServoTest.flipped in
  dispatchFins (mk [f0; f1; f2; f3]) =
    if String.eqb (ServoTest.index args) "All"
    then (mk [g f0; g f1; g f2; g f3], [g f0; g f1; g f2; g f3])
    else
      let i := atoi (ServoTest.index args) in
      if i =? 0 then (mk [g f0; f1; f2; f3], [g f0])
      else if i =? 1 then (mk [f0; g f1; f2; f3], [g f1])
      else if i =? 2 then (mk [f0; f1; g f2; f3], [g f2])
      else if i =? 3 then (mk [f0; f1; f2; g f3], [g f3])
      else (mk [f0; f1; f2; f3], []).
Proof.
  cbv zeta. unfold ServoTest.dispatchFins. cbn [ServoTest.m_args].
  destruct (String.eqb (ServoTest.index args) "All"); [reflexivity |].
  destruct ((0 <=? atoi (ServoTest.index args))
            && (atoi (ServoTest.index args) <? 4)) eqn:Er.
  - destruct (small_index _ Er) as [-> | [-> | [-> | ->]]]; reflexivity.
  - apply andb_false_iff in Er.
    destruct (Z.eqb_spec (atoi (ServoTest.index args)) 0) as [E | _];
      [rewrite E in Er; cbn in Er; destruct Er; discriminate |].
    destruct (Z.eqb_spec (atoi (ServoTest.index args)) 1) as [E | _];
      [rewrite E in Er; cbn in Er; destruct Er; discriminate |].
    destruct (Z.eqb_spec (atoi (ServoTest.index args)) 2) as [E | _];
      [rewrite E in Er; cbn in Er; destruct Er; discriminate |].
    destruct (Z.eqb_spec (atoi (ServoTest.index args)) 3) as [E | _];
      [rewrite E in Er; cbn in Er; destruct Er; discriminate |].
    reflexivity.
Qed.

(** X13. A second [dispatchFins] undoes the first: with its four fins in
    place, the task object is exactly as before the two calls, for the
    setting [All] as for a single fin or an index out of range. *)
Theorem dispatchFins_twice (s : ServoTest.Task) :
  List.length (ServoTest.m_fins s) = ServoTest.c_fins ->
  fst (dispatchFins (fst (dispatchFins s))) = s.
Proof.
  intros H. destruct (four_fins _ H) as (f0 & f1 & f2 & f3 & E).
  destruct s as [args fins tm cy pos sm]. cbn in E. subst fins.
  rewrite dispatchFins_four. cbv zeta.
  destruct (String.eqb (ServoTest.index args) "All") eqn:Eall.
  - cbn [fst]. rewrite dispatchFins_four. cbv zeta. rewrite Eall.
    cbn [fst]. now rewrite !flipped_twice.
  - repeat match goal with
           | |- context [if ?b then _ else _] => destruct b eqn:?
           end;
      cbn [fst]; rewrite dispatchFins_four; cbv zeta; rewrite Eall;
      repeat match goal with
             | H : _ = _ |- _ => rewrite H
             end;
      cbn [fst]; now rewrite ?flipped_twice.
Qed.

(** X14. What [dispatchFins] sends, with the four fins in place: for the
    setting [All], the four fin commands in order, each with its position
    negated; for any other setting, the one command of the fin [atoi]
    reads, if that is 0, 1, 2 or 3; and otherwise nothing at all, the task
    object staying as it is.  Whatever [atoi] reads as 0 -- text that is no
    number included -- drives fin 0. *)
Theorem dispatchFins_messages (s : ServoTest.Task) :
  List.length (ServoTest.m_fins s) = ServoTest.c_fins ->
  let idx := ServoTest.index (ServoTest.m_args s) in
  if String.eqb idx "All"
  then snd (dispatchFins s) = map ServoTest.flipped (ServoTest.m_fins s)
  else if (0 <=? atoi idx) && (atoi idx <? 4)
       then exists f,
              nth_error (ServoTest.m_fins s) (Z.to_nat (atoi idx)) = Some f /\
              snd (dispatchFins s) = [ServoTest.flipped f]
       else dispatchFins s = (s, []).
Proof.
  intros H. destruct (four_fins _ H) as (f0 & f1 & f2 & f3 & E).
  destruct s as [args fins tm cy pos sm]. cbn in E. subst fins.
  cbv zeta. rewrite dispatchFins_four. cbv zeta. cbn [ServoTest.m_args].
  destruct (String.eqb (ServoTest.index args) "All"); [reflexivity |].
  destruct ((0 <=? atoi (ServoTest.index args))
            && (atoi (ServoTest.index args) <? 4)) eqn:Er.
  - destruct (small_index _ Er) as [-> | [-> | [-> | ->]]]; cbn;
      eexists; split; reflexivity.
  - apply andb_false_iff in Er.
    repeat match goal with
           | |- context [?i =? ?k] =>
               destruct (Z.eqb_spec i k) as [Ek | _];
               [rewrite Ek in Er; cbn in Er; destruct Er; discriminate |]
           end.
    reflexivity.
Qed.

(** *** The fin commands stay in shape *)

Lemma fin_ok_flipped (i : nat) (f : ServoTest.SetServoPosition) :
  ServoTest.fin_ok half_pi i f ->
  ServoTest.fin_ok half_pi i (ServoTest.flipped f).
Proof.
  intros [Hid [Hv | Hv]]; split; cbn; try exact Hid; rewrite Hv;
    [now right | left; apply SFopp_involutive].
Qed.

Lemma fin_ok_command (i : nat) (f : ServoTest.SetServoPosition) :
  (i < 4)%nat -> ServoTest.fin_ok half_pi i f -> command_ok f.
Proof. intros Hi [Hid Hv]. split; [lia | exact Hv]. Qed.

Lemma dispatchFins_fins_ok (s : ServoTest.Task) :
  fins_ok (ServoTest.m_fins s) ->
  fins_ok (ServoTest.m_fins (fst (dispatchFins s))) /\
  Forall command_ok (snd (dispatchFins s)).
Proof.
  intros (f0 & f1 & f2 & f3 & E & H0 & H1 & H2 & H3).
  destruct s as [args fins tm cy pos sm]. cbn in E. subst fins.
  pose proof (fin_ok_flipped _ _ H0) as G0.
  pose proof (fin_ok_flipped _ _ H1) as G1.
  pose proof (fin_ok_flipped _ _ H2) as G2.
  pose proof (fin_ok_flipped _ _ H3) as G3.
  assert (C0 := fin_ok_command 0 _ ltac:(lia) G0).
  assert (C1 := fin_ok_command 1 _ ltac:(lia) G1).
  assert (C2 := fin_ok_command 2 _ ltac:(lia) G2).
  assert (C3 := fin_ok_command 3 _ ltac:(lia) G3).
  rewrite dispatchFins_four. cbv zeta.
  repeat match goal with
         | |- context [if ?b then _ else _] => destruct b
         end;
    cbn [fst snd ServoTest.m_fins];
    (split; [unfold ServoTest.fins_ok; eauto 12 | auto]).
Qed.

Lemma servo_step_fins_ok (e : ServoTest.Event) (s : ServoTest.Task) :
  fins_ok (ServoTest.m_fins s) ->
  fins_ok (ServoTest.m_fins (fst (servo_step e s))) /\
  Forall command_ok (snd (servo_step e s)).
Proof.
  intros H. destruct e as [| dt | cfg]; cbn [ServoTest.step].
  - unfold ServoTest.onMain_round.
    destruct (ServoTest.m_sm_state s); [| now split].
    destruct (Counter.overflow (ServoTest.m_timer s)); cbn [negb];
      [now split |].
    destruct (Counter.overflow (ServoTest.m_cycle s)); [| now split].
    now apply dispatchFins_fins_ok.
  - now split.
  - split; [| constructor]. unfold ServoTest.onUpdateParameters. cbn.
    now destruct (ServoTest.sm_state cfg).
Qed.

Lemma servo_run_cons (e : ServoTest.Event) (es : list ServoTest.Event)
    (s : ServoTest.Task) :
  servo_run (e :: es) s =
    (fst (servo_run es (fst (servo_step e s))),
     snd (servo_step e s) ++ snd (servo_run es (fst (servo_step e s)))).
Proof.
  cbn [ServoTest.run]. destruct (servo_step e s) as [s1 o1]. cbn [fst snd].
  now destruct (servo_run es s1).
Qed.

Lemma servo_run_fins_ok (es : list ServoTest.Event) (s : ServoTest.Task) :
  fins_ok (ServoTest.m_fins s) ->
  fins_ok (ServoTest.m_fins (fst (servo_run es s))) /\
  Forall command_ok (snd (servo_run es s)).
Proof.
  revert s. induction es as [| e es IH]; intros s H; [now split |].
  rewrite servo_run_cons. cbn [fst snd].
  destruct (servo_step_fins_ok e s H) as [H1 H2].
  destruct (IH _ H1) as [H3 H4].
  split; [exact H3 | apply Forall_app; now split].
Qed.

Lemma onResourceInitialization_fins_ok (s : ServoTest.Task) :
  List.length (ServoTest.m_fins s) = ServoTest.c_fins ->
  fins_ok (ServoTest.m_fins (ServoTest.onResourceInitialization half_pi s)).
Proof.
  intros H. destruct (four_fins _ H) as (f0 & f1 & f2 & f3 & E).
  destruct s as [args fins tm cy pos sm]. cbn in E. subst fins.
  cbn. unfold ServoTest.fins_ok, ServoTest.fin_ok.
  do 4 eexists. split; [reflexivity |]. cbn. auto 10.
Qed.

(** X15. Once [onResourceInitialization] has run, through any sequence of
    loop rounds, waits and parameter updates, the task keeps four fin
    commands, the one at position [i] with identifier [i] and position plus
    or minus a quarter turn; and every command it sends has an identifier
    among 0, 1, 2, 3 and one of these two positions. *)
Theorem servo_commands_in_shape
    (es : list ServoTest.Event) (s : ServoTest.Task) :
  List.length (ServoTest.m_fins s) = ServoTest.c_fins ->
  let r := servo_run es (ServoTest.onResourceInitialization half_pi s) in
  fins_ok (ServoTest.m_fins (fst r)) /\ Forall command_ok (snd r).
Proof.
  intros H. apply servo_run_fins_ok, onResourceInitialization_fins_ok, H.
Qed.

(** *** When the task sends *)

Lemma flip_fin_rest (i : nat) (s : ServoTest.Task) :
  ServoTest.rest (fst (ServoTest.flip_fin i s)) = ServoTest.rest s.
Proof.
  unfold ServoTest.flip_fin.
  now destruct (nth_error (ServoTest.m_fins s) i).
Qed.

Lemma flip_all_rest (l : list nat)
    (acc : ServoTest.Task * list ServoTest.SetServoPosition) :
  ServoTest.rest (fst (fold_left ServoTest.flip_next l acc)) = ServoTest.rest (fst acc).
Proof.
  revert acc. induction l as [| i l IH]; intros acc; [reflexivity |].
  cbn [fold_left]. rewrite IH. unfold ServoTest.flip_next.
  pose proof (flip_fin_rest i (fst acc)) as H.
  now destruct (ServoTest.flip_fin i (fst acc)).
Qed.

Lemma dispatchFins_rest (s : ServoTest.Task) :
  ServoTest.rest (fst (dispatchFins s)) = ServoTest.rest s.
Proof.
  unfold ServoTest.dispatchFins.
  destruct (String.eqb _ _); [apply flip_all_rest |].
  destruct (_ && _); [apply flip_fin_rest | reflexivity].
Qed.

Lemma overflow_stays (c : Counter.t) (dt : Q) :
  (0 <= dt)%Q -> Counter.overflow c = true ->
  Counter.overflow (Counter.advance dt c) = true.
Proof.
  unfold Counter.overflow. cbn. intros Hdt H.
  apply Qle_bool_iff in H. apply Qle_bool_iff. lra.
Qed.

(** X16. The test ends: once the test timer has overflowed, or while the
    test is switched off, no loop round sends a command or touches the fin
    commands, however long the loop goes on, until a parameter update
    arrives. *)
Theorem servo_silent_after_test
    (es : list ServoTest.Event) (s : ServoTest.Task) :
  ServoTest.m_sm_state s = false \/
  Counter.overflow (ServoTest.m_timer s) = true ->
  ServoTest.waits_forward es ->
  existsb ServoTest.is_update es = false ->
  snd (servo_run es s) = [] /\
  ServoTest.m_fins (fst (servo_run es s)) = ServoTest.m_fins s.
Proof.
  revert s. induction es as [| e es IH]; intros s H Hw Hu; [now split |].
  rewrite servo_run_cons. cbn [fst snd].
  destruct e as [| dt | cfg];
    cbn [ServoTest.step ServoTest.waits_forward existsb ServoTest.is_update
         orb] in *; [| | discriminate Hu].
  - unfold ServoTest.onMain_round.
    destruct (ServoTest.m_sm_state s) eqn:Hsm.
    + destruct H as [H | H]; [discriminate H |]. rewrite H.
      cbn [negb fst snd app].
      destruct (IH (ServoTest.set_sm_state false s)) as [-> ->]; auto.
    + cbn [fst snd app]. apply IH; auto.
  - destruct Hw as [Hdt Hw]. cbn [fst snd app].
    destruct (IH (ServoTest.wait dt s)) as [-> ->]; auto.
    destruct H as [H | H]; [now left | right].
    cbn. now apply overflow_stays.
Qed.

Lemma servo_within_cycle (es : list ServoTest.Event) (s : ServoTest.Task) :
  (0 <= Counter.elapsed (ServoTest.m_cycle s))%Q ->
  ServoTest.waits_forward es ->
  existsb ServoTest.is_update es = false ->
  (Counter.elapsed (ServoTest.m_cycle s) + ServoTest.total_wait es
   < Counter.top (ServoTest.m_cycle s))%Q ->
  snd (servo_run es s) = [].
Proof.
  revert s. induction es as [| e es IH]; intros s H0 Hw Hu Hlt;
    [reflexivity |].
  rewrite servo_run_cons. cbn [snd].
  assert (Hn : forall l, ServoTest.waits_forward l ->
                         (0 <= ServoTest.total_wait l)%Q).
  { induction l as [| [| d | c] l IHl]; cbn; intros Hl; [lra | auto | | auto].
    destruct Hl as [Hd Hl]. specialize (IHl Hl). lra. }
  destruct e as [| dt | cfg];
    cbn [ServoTest.step ServoTest.waits_forward existsb ServoTest.is_update
         orb ServoTest.total_wait] in *; [| | discriminate Hu].
  - pose proof (Hn es Hw) as Hes.
    unfold ServoTest.onMain_round.
    rewrite (not_overflowed (ServoTest.m_cycle s)) by lra.
    destruct (ServoTest.m_sm_state s);
      [destruct (Counter.overflow (ServoTest.m_timer s)) |];
      cbn [negb fst snd app]; apply IH; auto.
  - destruct Hw as [Hdt Hw]. cbn [fst snd app].
    apply IH; [| exact Hw | exact Hu |]; cbn; lra.
Qed.

(** X17. At most one sweep per cycle: after a loop round that has sent
    commands, the loop sends nothing more while the waits since add up to
    less than the threshold of the cycle timer (no parameter update
    arriving in between). *)
Theorem servo_one_sweep_per_cycle
    (es : list ServoTest.Event) (s : ServoTest.Task) :
  snd (ServoTest.onMain_round atoi s) <> [] ->
  ServoTest.waits_forward es ->
  existsb ServoTest.is_update es = false ->
  (ServoTest.total_wait es < Counter.top (ServoTest.m_cycle s))%Q ->
  snd (servo_run es (fst (ServoTest.onMain_round atoi s))) = [].
Proof.
  intros Hsent Hw Hu Hlt.
  assert (E : ServoTest.m_cycle (fst (ServoTest.onMain_round atoi s))
              = Counter.reset (ServoTest.m_cycle s)).
  { unfold ServoTest.onMain_round in *.
    destruct (ServoTest.m_sm_state s); [| now destruct Hsent].
    destruct (Counter.overflow (ServoTest.m_timer s)); cbn [negb] in *;
      [now destruct Hsent |].
    destruct (Counter.overflow (ServoTest.m_cycle s)); [| now destruct Hsent].
    pose proof (dispatchFins_rest (ServoTest.upd_cycle Counter.reset s)) as R.
    unfold ServoTest.rest in R. cbn in R. now injection R as _ _ R _ _. }
  apply servo_within_cycle; auto; rewrite E; cbn; lra.
Qed.

End ServoTestFacts.

(** ** The flags of the supervisor *)

Section Flags.

Variable system_id : Z.
Variable toWGS84 : EstimatedState -> spec_float * spec_float.
Variable WGS84_distance :
  spec_float -> spec_float -> spec_float ->
  spec_float -> spec_float -> spec_float -> spec_float.

Local Abbreviation step2 := (step system_id toWGS84 WGS84_distance).
Local Abbreviation exec2 := (run system_id toWGS84 WGS84_distance).

(** X18. A plan command of another system re-arms the supervisor: whatever
    [m_safety] and [m_issued] were, if afterwards the vehicle is away from
    the reference point with the lost-comms timer overflowed while idle in
    service or error, the next tick sends the [safety_zone] request
    (again, if it had been sent before). *)
Theorem hand_over_rearms_safety (src : Z) (s : Task) :
  src <> system_id ->
  m_dr s = GOT_ALL ->
  MediumHandler.inWater (m_medium s) = true ->
  m_is_near s = false ->
  Counter.overflow (m_lost_coms_timer s) = true ->
  m_serv_err s = true ->
  isIdle s = true ->
  let s' := fst (call (consume_PlanControl system_id src) s) in
  isSafe s' = false /\
  existsb is_safety_zone (snd (call task s')) = true.
Proof.
  intros Hsrc Hdr Hw Hnear Hov Hse Hidle. cbv zeta.
  rewrite call_consume_PlanControl.
  apply Z.eqb_neq in Hsrc. rewrite Hsrc. cbn [fst].
  assert (Hs : isSafe (set_safety false (set_issued false s)) = false).
  { unfold isSafe, isNear, isIdle in *. cbn. now rewrite Hnear, Hov, Hse, Hidle. }
  split; [exact Hs |].
  rewrite call_task, Hs. cbn. now rewrite Hdr, Hw.
Qed.

Lemma task_flags_sent (s : Task) :
  (m_safety (fst (call task s)) = true ->
   m_safety s = true \/ existsb is_safety_zone (snd (call task s)) = true) /\
  (m_issued (fst (call task s)) = true ->
   m_issued s = true \/ existsb is_hold_dispatch (snd (call task s)) = true).
Proof.
  rewrite call_task.
  repeat match goal with
         | |- context [if ?b then _ else _] => destruct b
         end;
    try (cbn; now auto);
    match goal with
    | |- context [hold_station ?pre ?t] =>
        destruct (hold_station_cases pre t) as [-> | [(_ & _ & ->) | (_ & _ & ->)]]
    end; cbn; auto.
Qed.

Lemma step_flags_sent (e : Event) (s : Task) :
  (m_safety (fst (step2 e s)) = true ->
   m_safety s = true \/ existsb is_safety_zone (snd (step2 e s)) = true) /\
  (m_issued (fst (step2 e s)) = true ->
   m_issued s = true \/ existsb is_hold_dispatch (snd (step2 e s)) = true).
Proof.
  destruct e as [msg | | dt]; cbn [step].
  - destruct msg as [m | src | src | m | m | m]; cbn [consume].
    + rewrite call_consume_EstimatedState. cbn. auto.
    + rewrite call_consume_Heartbeat.
      destruct (negb (src =? system_id) && negb (Z.land src 0x4000 =? 0));
        cbn; auto.
    + rewrite call_consume_PlanControl.
      destruct (src =? system_id); cbn; auto.
    + rewrite call_consume_PlanControlState. cbn. auto.
    + rewrite call_consume_VehicleState.
      destruct (VS_OpMode_eqb m VS_BOOT); cbn; auto.
    + rewrite call_consume_VehicleMedium.
      destruct (MediumHandler.isUnderwater m); cbn; auto.
  - apply task_flags_sent.
  - cbn. auto.
Qed.

(** X19. The flags tell the truth about what was sent: after any history,
    [m_safety] is set only if it was set at the start or a [safety_zone]
    request was dispatched in that history; and [m_issued] is set only if it
    was set at the start or a request for one of the plans [surface], [sk],
    [safety_surface], [safety_sk] was dispatched in that history. *)
Theorem flags_imply_sent (es : list Event) (s : Task) :
  (m_safety (fst (exec2 es s)) = true ->
   m_safety s = true \/ existsb is_safety_zone (snd (exec2 es s)) = true) /\
  (m_issued (fst (exec2 es s)) = true ->
   m_issued s = true \/ existsb is_hold_dispatch (snd (exec2 es s)) = true).
Proof.
  revert s. induction es as [| e es IH]; intros s; [cbn; auto |].
  rewrite run_cons. cbn [fst snd]. rewrite !existsb_app.
  destruct (IH (fst (step2 e s))) as [IH1 IH2].
  destruct (step_flags_sent e s) as [S1 S2].
  split; intros H.
  - destruct (IH1 H) as [H1 | ->]; [| now rewrite orb_true_r; right].
    destruct (S1 H1) as [H2 | ->]; [now left | now right].
  - destruct (IH2 H) as [H1 | ->]; [| now rewrite orb_true_r; right].
    destruct (S2 H1) as [H2 | ->]; [now left | now right].
Qed.

End Flags.

(** ** The further theorems at work on the sample data *)

Lemma no_medium_history_is_silent :
  snd (run vehicle_id flat_toWGS84 flat_distance history_no_medium
         (fst (startup default_cfg))) = [].
Proof.
  apply (silent_until_all_seen vehicle_id flat_toWGS84 flat_distance).
  reflexivity.
Defined.

Lemma idle_at_surface_repeats :
  call task (fst (call task idle_at_surface)) = call task idle_at_surface.
Proof. apply safe_tick_repeats; reflexivity. Defined.

Lemma drifting_then_keeps_station :
  snd (call task drifting) = [Dispatch safety_request] /\
  snd (call task (elapse 1 (fst (call task drifting)))) =
    [Dispatch (mkPG OP_REQUEST CMD_EXECUTE "sk"
                 "calibrate=false;ignore_errors=true");
     EntityState ESTA_NORMAL CODE_ACTIVE].
Proof. apply (hold_follows_safety drifting 1); reflexivity. Defined.

Lemma failed_underwater_backs_off :
  m_fail_timer (fst (call task failed_underwater)) = Counter.mk 60 0 /\
  existsb is_hold_request
    (snd (call task (elapse 30 (fst (call task failed_underwater))))) = false.
Proof.
  apply (retry_backoff failed_underwater 30); try reflexivity.
  split; [discriminate | reflexivity].
Defined.

Lemma in_touch_no_safety_zone :
  existsb is_safety_zone
    (snd (run vehicle_id flat_toWGS84 flat_distance history_in_touch
            (upd_lost_coms_timer Counter.reset drifting))) = false.
Proof.
  apply (no_safety_zone_within_timeout vehicle_id flat_toWGS84 flat_distance).
  - discriminate.
  - cbn. repeat split; discriminate.
  - reflexivity.
Defined.

Lemma console_command_rearms :
  isSafe (fst (call (consume_PlanControl vehicle_id console_id)
                 (elapse 700 (fst (call task drifting))))) = false /\
  existsb is_safety_zone
    (snd (call task
            (fst (call (consume_PlanControl vehicle_id console_id)
                    (elapse 700 (fst (call task drifting))))))) = true.
Proof.
  apply (hand_over_rearms_safety vehicle_id console_id
           (elapse 700 (fst (call task drifting))));
    try reflexivity.
  discriminate.
Defined.

Lemma sweeping_twice :
  fst (ServoTest.dispatchFins ServoTest.c_atoi
         (fst (ServoTest.dispatchFins ServoTest.c_atoi ServoTest.sweeping)))
  = ServoTest.sweeping.
Proof. apply dispatchFins_twice. reflexivity. Defined.

Lemma sweeping_fin2_message :
  exists f,
    nth_error (ServoTest.m_fins ServoTest.sweeping_fin2) 2 = Some f /\
    snd (ServoTest.dispatchFins ServoTest.c_atoi ServoTest.sweeping_fin2)
    = [ServoTest.flipped f].
Proof.
  exact (dispatchFins_messages ServoTest.c_atoi ServoTest.sweeping_fin2
           eq_refl).
Defined.

Lemma blank_commands_in_shape :
  let r := ServoTest.run ServoTest.c_atoi
             (ServoTest.Update (ServoTest.mkArgs 1 1 "All" true)
              :: ServoTest.Wait 1 :: ServoTest.loop_sample)
             (ServoTest.onResourceInitialization ServoTest.half_pi_f
                ServoTest.blank) in
  ServoTest.fins_ok ServoTest.half_pi_f (ServoTest.m_fins (fst r)) /\
  Forall (ServoTest.command_ok ServoTest.half_pi_f) (snd r).
Proof.
  apply (servo_commands_in_shape ServoTest.half_pi_f ServoTest.c_atoi).
  reflexivity.
Defined.

Lemma blank_stays_silent :
  snd (ServoTest.run ServoTest.c_atoi ServoTest.loop_sample
         ServoTest.blank) = [] /\
  ServoTest.m_fins
    (fst (ServoTest.run ServoTest.c_atoi ServoTest.loop_sample
            ServoTest.blank))
  = ServoTest.m_fins ServoTest.blank.
Proof.
  apply servo_silent_after_test.
  - left. reflexivity.
  - cbn. repeat split; discriminate.
  - reflexivity.
Defined.

Lemma sweeping_once_per_cycle :
  snd (ServoTest.run ServoTest.c_atoi ServoTest.loop_sample
         (fst (ServoTest.onMain_round ServoTest.c_atoi ServoTest.sweeping)))
  = [].
Proof.
  apply servo_one_sweep_per_cycle.
  - discriminate.
  - cbn. repeat split; discriminate.
  - reflexivity.
  - reflexivity.
Defined.

Lemma near_history_no_safety_zone :
  existsb is_safety_zone
    (snd (run vehicle_id flat_toWGS84 flat_distance
            (Deliver (MsgVehicleMedium MediumHandler.VM_WATER)
             :: history_no_medium)
            (fst (startup default_cfg)))) = false.
Proof.
  apply (no_safety_zone_while_near vehicle_id flat_toWGS84 flat_distance);
    reflexivity.
Defined.

(** The history of [history_drifting] from start-up ends with [m_issued]
    set, and a request to keep station was dispatched in it. *)
Lemma drifting_history_flags :
  existsb is_hold_dispatch
    (snd (run vehicle_id flat_toWGS84 flat_distance history_drifting
            (fst (startup default_cfg)))) = true.
Proof.
  destruct (proj2 (flags_imply_sent vehicle_id flat_toWGS84 flat_distance
                     history_drifting (fst (startup default_cfg))) eq_refl)
    as [H | H]; [discriminate H | exact H].
Defined.

(** [c_atoi] on the settings a user may type. *)
Example c_atoi_samples :
  map ServoTest.c_atoi ["2"; "12"; "-1"; " 3"; "+3"; "3rd"; "All"; "all"]
  = [2; 12; -1; 3; 3; 3; 0; 0].
Proof. reflexivity. Qed.
